(** * Send-side RTP transport controller

    A shallow embedding of [call/rtp_transport_controller_send.cc]: the
    controller's own members are an explicit state record, every call it
    makes on a collaborator (pacer, congestion controller, process thread)
    and every log line is recorded in program order, and a failed
    [RTC_DCHECK] halts the operation with the state reached so far. *)

From stdpp Require Import gmap strings list fin_maps.
From Stdlib Require Import ZArith.

Local Open Scope Z_scope.

(** ** Data declared in headers outside this translation unit *)

(** Modelled from the spec: [rtc::NetworkRoute] is declared in a header that
    is not part of the sources; the spec gives it two network ids and a
    connected flag. *)
Record NetworkRoute := {
  connected : bool;
  local_network_id : Z;
  remote_network_id : Z;
}.

#[global] Instance NetworkRoute_eq_dec : EqDecision NetworkRoute.
Proof. solve_decision. Defined.

(** Modelled from the spec: [operator!=] on [rtc::NetworkRoute]; equality is
    structural, over both ids and the connected flag. *)
Definition NetworkRoute_ne (a b : NetworkRoute) : bool :=
  negb (bool_decide (connected a = connected b)
        && (local_network_id a =? local_network_id b)
        && (remote_network_id a =? remote_network_id b)).

(** [BitrateConstraints]: the three fields this file reads. *)
Record BitrateConstraints := {
  min_bitrate_bps : Z;
  start_bitrate_bps : Z;
  max_bitrate_bps : Z;
}.

#[global] Instance BitrateConstraints_eq_dec : EqDecision BitrateConstraints.
Proof. solve_decision. Defined.

(** Modelled from the spec: [BitrateConstraintsMask], optional overrides of
    each field, absent meaning that the field is not overridden. *)
Record BitrateConstraintsMask := {
  mask_min_bitrate_bps : option Z;
  mask_start_bitrate_bps : option Z;
  mask_max_bitrate_bps : option Z;
}.

(** Values that the controller only forwards. A [float] is kept as its bit
    pattern, a pointer as its address. *)
Definition float := Z.
Definition ptr := Z.

(** Modelled from the spec: [rtc::SentPacket], a record forwarded verbatim. *)
Record SentPacket := {
  packet_id : Z;
  send_time_ms : Z;
}.

Inductive NetworkState := kNetworkUp | kNetworkDown.

(** ** Bitrate constraints merger *)

Module RtpBitrateConfigurator.

(** Modelled from the spec: the class [RtpBitrateConfigurator] is defined
    outside the sources. Section 4.3 of the spec gives it a base, a mask
    that starts fully absent, a per-field merge, and two mutators that
    return the effective config only when it differs from the previous
    one. *)
Record t := {
  base : BitrateConstraints;
  mask : BitrateConstraintsMask;
  effective : BitrateConstraints;
}.

Definition no_mask : BitrateConstraintsMask :=
  {| mask_min_bitrate_bps := None;
     mask_start_bitrate_bps := None;
     mask_max_bitrate_bps := None |}.

(** Modelled from the spec: [effective.field = mask.field if present else
    base.field], independently per field. *)
Definition merge (b : BitrateConstraints) (m : BitrateConstraintsMask)
  : BitrateConstraints :=
  {| min_bitrate_bps := default (min_bitrate_bps b) (mask_min_bitrate_bps m);
     start_bitrate_bps := default (start_bitrate_bps b) (mask_start_bitrate_bps m);
     max_bitrate_bps := default (max_bitrate_bps b) (mask_max_bitrate_bps m) |}.

(** Modelled from the spec: the constructor, from the initial constraints. *)
Definition create (bitrate_config : BitrateConstraints) : t :=
  {| base := bitrate_config; mask := no_mask;
     effective := merge bitrate_config no_mask |}.

(** Modelled from the spec: the current effective config. *)
Definition GetConfig (c : t) : BitrateConstraints := effective c.

(** Modelled from the spec: recompute the effective config and report it
    only when it changed. *)
Definition UpdateConstraints (b : BitrateConstraints) (m : BitrateConstraintsMask)
    (c : t) : option BitrateConstraints * t :=
  let e := merge b m in
  if decide (e = effective c)
  then (None, {| base := b; mask := m; effective := effective c |})
  else (Some e, {| base := b; mask := m; effective := e |}).

(** Modelled from the spec: replaces the base. *)
Definition UpdateWithSdpParameters (new_base : BitrateConstraints) (c : t)
  : option BitrateConstraints * t :=
  UpdateConstraints new_base (mask c) c.

(** Modelled from the spec: replaces the mask. *)
Definition UpdateWithClientPreferences (new_mask : BitrateConstraintsMask) (c : t)
  : option BitrateConstraints * t :=
  UpdateConstraints (base c) new_mask c.

End RtpBitrateConfigurator.

(** ** Calls received by the collaborators *)

Module PacedSender.
Inductive Call :=
| SetSendBitrateLimits (min_send_bitrate_bps max_padding_bitrate_bps : Z)
| SetPacingFactor (pacing_factor : float)
| SetQueueTimeLimit (limit_ms : Z)
| QueueInMs
| FirstSentPacketTimeMs.
End PacedSender.

Module SendSideCongestionController.
Inductive Call :=
| SignalNetworkState (state : NetworkState)
| SetBweBitrates (min_bitrate_bps start_bitrate_bps max_bitrate_bps : Z)
| SetMaxTotalAllocatedBitrate (max_total_bitrate_bps : Z)
| RegisterPacketFeedbackObserver (observer : ptr)
| DeRegisterPacketFeedbackObserver (observer : ptr)
| RegisterNetworkObserver (observer : ptr)
| OnNetworkRouteChanged (network_route : NetworkRoute)
    (start_bitrate_bps min_bitrate_bps max_bitrate_bps : Z)
| GetBandwidthObserver
| AvailableBandwidth (bandwidth : ptr)
| EnablePeriodicAlrProbing (enable : bool)
| OnSentPacket (sent_packet : SentPacket).
End SendSideCongestionController.

(** The two periodic modules handed to the process thread. *)
Inductive PeriodicModule := pacer_module | send_side_cc_module.

#[global] Instance PeriodicModule_eq_dec : EqDecision PeriodicModule.
Proof. solve_decision. Defined.

Module ProcessThread.
Inductive Call :=
| RegisterModule (module : PeriodicModule)
| DeRegisterModule (module : PeriodicModule)
| Start
| Stop.
End ProcessThread.

(** ** Log lines *)

Inductive LoggingSeverity := LS_VERBOSE | LS_INFO.

(** One operand of the [<<] chain of an [RTC_LOG] statement. *)
Inductive LogPart :=
| Str (s : string)
| Int (n : Z).

(** ** Everything an operation does outside the controller's own members *)

Inductive Event :=
| Pacer (c : PacedSender.Call)
| Cc (c : SendSideCongestionController.Call)
| Thread (c : ProcessThread.Call)
| Log (severity : LoggingSeverity) (message : list LogPart).

(** What a member function hands back when it returns a collaborator's
    answer or the address of a member. The controller never inspects such
    an answer, so it is kept as the call that produced it. *)
Inductive Handle :=
| packet_router_addr
| pacer_addr
| send_side_cc_addr
| answer_of (e : Event).

Definition is_downstream (e : Event) : bool :=
  match e with
  | Log _ _ => false
  | _ => true
  end.

(** The calls on collaborators among the events, in order. *)
Definition downstream (tr : list Event) : list Event :=
  List.filter is_downstream tr.

Definition is_reset (e : Event) : bool :=
  match e with
  | Cc (SendSideCongestionController.OnNetworkRouteChanged _ _ _ _) => true
  | _ => false
  end.

(** The estimator resets among the events, in order. *)
Definition resets (tr : list Event) : list Event :=
  List.filter is_reset tr.

Definition is_SetBweBitrates (e : Event) : bool :=
  match e with
  | Cc (SendSideCongestionController.SetBweBitrates _ _ _) => true
  | _ => false
  end.

(** ** Outcome of a member function *)

(** A member function either returns a value or is halted by a failed
    check. *)
Inductive Status (A : Type) :=
| Done (a : A)
| Halted.
Arguments Done {A} a.
Arguments Halted {A}.

Section Controller.

(** [RtpKeepAliveConfig] is declared outside the sources and the
    controller only copies it: any type, with the value its default
    constructor gives. *)
Context {RtpKeepAliveConfig : Type}.
Variable RtpKeepAliveConfig_default : RtpKeepAliveConfig.

(** The members of the class that are the controller's own state. The
    pacer, the congestion controller and the process thread are reached
    only through calls, which are recorded as events. *)
Record RtpTransportControllerSend := {
  bitrate_configurator_ : RtpBitrateConfigurator.t;
  network_routes_ : gmap string NetworkRoute;
  keepalive_ : RtpKeepAliveConfig;
}.

Definition set_bitrate_configurator_ (c : RtpBitrateConfigurator.t)
    (s : RtpTransportControllerSend) : RtpTransportControllerSend :=
  {| bitrate_configurator_ := c;
     network_routes_ := network_routes_ s;
     keepalive_ := keepalive_ s |}.

Definition set_network_routes_ (m : gmap string NetworkRoute)
    (s : RtpTransportControllerSend) : RtpTransportControllerSend :=
  {| bitrate_configurator_ := bitrate_configurator_ s;
     network_routes_ := m;
     keepalive_ := keepalive_ s |}.

Definition set_keepalive_ (k : RtpKeepAliveConfig)
    (s : RtpTransportControllerSend) : RtpTransportControllerSend :=
  {| bitrate_configurator_ := bitrate_configurator_ s;
     network_routes_ := network_routes_ s;
     keepalive_ := k |}.

(** Status, final members, and the events in program order. *)
Definition Outcome (A : Type) : Type :=
  Status A * RtpTransportControllerSend * list Event.

Definition status_of {A} (o : Outcome A) : Status A := o.1.1.
Definition state_of {A} (o : Outcome A) : RtpTransportControllerSend := o.1.2.
Definition trace_of {A} (o : Outcome A) : list Event := o.2.

Definition M (A : Type) : Type := RtpTransportControllerSend -> Outcome A.

#[local] Instance M_ret : MRet M := fun A a s => (Done a, s, []).

#[local] Instance M_bind : MBind M := fun A B f m s =>
  match m s with
  | (Done a, s1, t1) =>
      match f a s1 with
      | (r, s2, t2) => (r, s2, t1 ++ t2)
      end
  | (Halted, s1, t1) => (Halted, s1, t1)
  end.

Definition get : M RtpTransportControllerSend := fun s => (Done s, s, []).
Definition modify (f : RtpTransportControllerSend -> RtpTransportControllerSend)
  : M unit := fun s => (Done tt, f s, []).
Definition emit (e : Event) : M unit := fun s => (Done tt, s, [e]).
Definition halt {A} : M A := fun s => (Halted, s, []).

(** *** Macros and member calls *)

Definition RTC_LOG (severity : LoggingSeverity) (message : list LogPart) : M unit :=
  emit (Log severity message).

(** Modelled from the spec: the macro [RTC_DCHECK_GT] is defined outside
    the sources; the spec makes the check a fatal assertion, so a failed
    check halts. *)
Definition RTC_DCHECK_GT (a b : Z) : M unit :=
  if a >? b then mret tt else halt.

Definition pacer_call (c : PacedSender.Call) : M Handle :=
  emit (Pacer c);; mret (answer_of (Pacer c)).

Definition send_side_cc_call (c : SendSideCongestionController.Call) : M Handle :=
  emit (Cc c);; mret (answer_of (Cc c)).

Definition process_thread_call (c : ProcessThread.Call) : M Handle :=
  emit (Thread c);; mret (answer_of (Thread c)).

(** [std::map::insert]: a new element is added only when the key is
    absent. The iterator of the result is represented by the mapped value
    it points to, next to the flag. *)
Definition network_routes_insert (k : string) (v : NetworkRoute)
  : M (NetworkRoute * bool) := fun s =>
  match network_routes_ s !! k with
  | Some old => (Done (old, false), s, [])
  | None => (Done (v, true), set_network_routes_ (<[k := v]> (network_routes_ s)) s, [])
  end.

(** [kv->second = v], for the iterator at key [k]. *)
Definition network_routes_assign (k : string) (v : NetworkRoute) : M unit :=
  modify (fun s => set_network_routes_ (<[k := v]> (network_routes_ s)) s).

Definition bitrate_configurator_GetConfig : M BitrateConstraints :=
  s ← get; mret (RtpBitrateConfigurator.GetConfig (bitrate_configurator_ s)).

Definition bitrate_configurator_UpdateWithSdpParameters
    (constraints : BitrateConstraints) : M (option BitrateConstraints) := fun s =>
  let r := RtpBitrateConfigurator.UpdateWithSdpParameters
             constraints (bitrate_configurator_ s) in
  (Done r.1, set_bitrate_configurator_ r.2 s, []).

Definition bitrate_configurator_UpdateWithClientPreferences
    (preferences : BitrateConstraintsMask) : M (option BitrateConstraints) := fun s =>
  let r := RtpBitrateConfigurator.UpdateWithClientPreferences
             preferences (bitrate_configurator_ s) in
  (Done r.1, set_bitrate_configurator_ r.2 s, []).

(** *** Construction and destruction *)

(** [clock] and [event_log] only reach the constructors of the pacer and of
    the congestion controller. The result holds the members of the new
    object and the calls made by the constructor's body. *)
Definition RtpTransportControllerSend_ctor (clock event_log : ptr)
    (bitrate_config : BitrateConstraints) : Outcome unit :=
  (send_side_cc_call (SendSideCongestionController.SignalNetworkState kNetworkDown);;
   send_side_cc_call (SendSideCongestionController.SetBweBitrates
                        (min_bitrate_bps bitrate_config)
                        (start_bitrate_bps bitrate_config)
                        (max_bitrate_bps bitrate_config));;
   process_thread_call (ProcessThread.RegisterModule pacer_module);;
   process_thread_call (ProcessThread.RegisterModule send_side_cc_module);;
   process_thread_call ProcessThread.Start;;
   mret tt)
    {| bitrate_configurator_ := RtpBitrateConfigurator.create bitrate_config;
       network_routes_ := ∅;
       keepalive_ := RtpKeepAliveConfig_default |}.

Definition RtpTransportControllerSend_dtor : M unit :=
  process_thread_call ProcessThread.Stop;;
  process_thread_call (ProcessThread.DeRegisterModule send_side_cc_module);;
  process_thread_call (ProcessThread.DeRegisterModule pacer_module);;
  mret tt.

(** *** Member functions *)

Definition packet_router : M Handle := mret packet_router_addr.

Definition transport_feedback_observer : M Handle := mret send_side_cc_addr.

Definition packet_sender : M Handle := mret pacer_addr.

Definition keepalive_config : M RtpKeepAliveConfig :=
  s ← get; mret (keepalive_ s).

Definition SetAllocatedSendBitrateLimits
    (min_send_bitrate_bps max_padding_bitrate_bps max_total_bitrate_bps : Z) : M unit :=
  pacer_call (PacedSender.SetSendBitrateLimits
                min_send_bitrate_bps max_padding_bitrate_bps);;
  send_side_cc_call (SendSideCongestionController.SetMaxTotalAllocatedBitrate
                       max_total_bitrate_bps);;
  mret tt.

Definition SetKeepAliveConfig (config : RtpKeepAliveConfig) : M unit :=
  modify (set_keepalive_ config).

Definition SetPacingFactor (pacing_factor : float) : M unit :=
  pacer_call (PacedSender.SetPacingFactor pacing_factor);; mret tt.

Definition SetQueueTimeLimit (limit_ms : Z) : M unit :=
  pacer_call (PacedSender.SetQueueTimeLimit limit_ms);; mret tt.

Definition GetCallStatsObserver : M Handle := mret send_side_cc_addr.

Definition RegisterPacketFeedbackObserver (observer : ptr) : M unit :=
  send_side_cc_call
    (SendSideCongestionController.RegisterPacketFeedbackObserver observer);;
  mret tt.

Definition DeRegisterPacketFeedbackObserver (observer : ptr) : M unit :=
  send_side_cc_call
    (SendSideCongestionController.DeRegisterPacketFeedbackObserver observer);;
  mret tt.

Definition RegisterNetworkObserver (observer : ptr) : M unit :=
  send_side_cc_call (SendSideCongestionController.RegisterNetworkObserver observer);;
  mret tt.

Definition disconnected_message (transport_name : string) : list LogPart :=
  [Str "Transport "; Str transport_name; Str " is disconnected"].

Definition route_changed_message (transport_name : string)
    (network_route : NetworkRoute) (bitrate_config : BitrateConstraints)
  : list LogPart :=
  [Str "Network route changed on transport "; Str transport_name;
   Str ": new local network id "; Int (local_network_id network_route);
   Str " new remote network id "; Int (remote_network_id network_route);
   Str " Reset bitrates to min: "; Int (min_bitrate_bps bitrate_config);
   Str " bps, start: "; Int (start_bitrate_bps bitrate_config);
   Str " bps,  max: "; Int (max_bitrate_bps bitrate_config);
   Str " bps."].

Definition OnNetworkRouteChanged (transport_name : string)
    (network_route : NetworkRoute) : M unit :=
  if negb (connected network_route) then
    RTC_LOG LS_INFO (disconnected_message transport_name)
  else
    '(kv_second, inserted) ← network_routes_insert transport_name network_route;
    if (inserted : bool) then
      mret tt
    else if NetworkRoute_ne kv_second network_route then
      network_routes_assign transport_name network_route;;
      bitrate_config ← bitrate_configurator_GetConfig;
      RTC_LOG LS_INFO
        (route_changed_message transport_name network_route bitrate_config);;
      RTC_DCHECK_GT (start_bitrate_bps bitrate_config) 0;;
      send_side_cc_call
        (SendSideCongestionController.OnNetworkRouteChanged
           network_route
           (start_bitrate_bps bitrate_config)
           (min_bitrate_bps bitrate_config)
           (max_bitrate_bps bitrate_config));;
      mret tt
    else
      mret tt.

Definition OnNetworkAvailability (network_available : bool) : M unit :=
  send_side_cc_call
    (SendSideCongestionController.SignalNetworkState
       (if network_available then kNetworkUp else kNetworkDown));;
  mret tt.

Definition GetBandwidthObserver : M Handle :=
  send_side_cc_call SendSideCongestionController.GetBandwidthObserver.

Definition AvailableBandwidth (bandwidth : ptr) : M Handle :=
  send_side_cc_call (SendSideCongestionController.AvailableBandwidth bandwidth).

Definition GetPacerQueuingDelayMs : M Handle :=
  pacer_call PacedSender.QueueInMs.

Definition GetFirstPacketTimeMs : M Handle :=
  pacer_call PacedSender.FirstSentPacketTimeMs.

Definition EnablePeriodicAlrProbing (enable : bool) : M unit :=
  send_side_cc_call (SendSideCongestionController.EnablePeriodicAlrProbing enable);;
  mret tt.

Definition OnSentPacket (sent_packet : SentPacket) : M unit :=
  send_side_cc_call (SendSideCongestionController.OnSentPacket sent_packet);;
  mret tt.

Definition SetBweBitrates_of (updated : BitrateConstraints) : Event :=
  Cc (SendSideCongestionController.SetBweBitrates
        (min_bitrate_bps updated)
        (start_bitrate_bps updated)
        (max_bitrate_bps updated)).

Definition SetSdpBitrateParameters (constraints : BitrateConstraints) : M unit :=
  updated ← bitrate_configurator_UpdateWithSdpParameters constraints;
  match updated with
  | Some updated =>
      send_side_cc_call
        (SendSideCongestionController.SetBweBitrates
           (min_bitrate_bps updated)
           (start_bitrate_bps updated)
           (max_bitrate_bps updated));;
      mret tt
  | None =>
      RTC_LOG LS_VERBOSE
        [Str "WebRTC.RtpTransportControllerSend.SetSdpBitrateParameters: ";
         Str "nothing to update"]
  end.

Definition SetClientBitratePreferences (preferences : BitrateConstraintsMask)
  : M unit :=
  updated ← bitrate_configurator_UpdateWithClientPreferences preferences;
  match updated with
  | Some updated =>
      send_side_cc_call
        (SendSideCongestionController.SetBweBitrates
           (min_bitrate_bps updated)
           (start_bitrate_bps updated)
           (max_bitrate_bps updated));;
      mret tt
  | None =>
      RTC_LOG LS_VERBOSE
        [Str "WebRTC.RtpTransportControllerSend.SetClientBitratePreferences: ";
         Str "nothing to update"]
  end.

(** *** The public interface as a script *)

(** One call of a public member function, with its arguments. *)
Inductive Op :=
| Call_packet_router
| Call_transport_feedback_observer
| Call_packet_sender
| Call_keepalive_config
| Call_SetAllocatedSendBitrateLimits
    (min_send_bitrate_bps max_padding_bitrate_bps max_total_bitrate_bps : Z)
| Call_SetKeepAliveConfig (config : RtpKeepAliveConfig)
| Call_SetPacingFactor (pacing_factor : float)
| Call_SetQueueTimeLimit (limit_ms : Z)
| Call_GetCallStatsObserver
| Call_RegisterPacketFeedbackObserver (observer : ptr)
| Call_DeRegisterPacketFeedbackObserver (observer : ptr)
| Call_RegisterNetworkObserver (observer : ptr)
| Call_OnNetworkRouteChanged (transport_name : string) (network_route : NetworkRoute)
| Call_OnNetworkAvailability (network_available : bool)
| Call_GetBandwidthObserver
| Call_AvailableBandwidth (bandwidth : ptr)
| Call_GetPacerQueuingDelayMs
| Call_GetFirstPacketTimeMs
| Call_EnablePeriodicAlrProbing (enable : bool)
| Call_OnSentPacket (sent_packet : SentPacket)
| Call_SetSdpBitrateParameters (constraints : BitrateConstraints)
| Call_SetClientBitratePreferences (preferences : BitrateConstraintsMask).

Definition is_SetKeepAliveConfig (o : Op) : bool :=
  match o with
  | Call_SetKeepAliveConfig _ => true
  | _ => false
  end.

(** Runs one call and drops what it returns. *)
Definition exec (o : Op) : M unit :=
  match o with
  | Call_packet_router => packet_router;; mret tt
  | Call_transport_feedback_observer => transport_feedback_observer;; mret tt
  | Call_packet_sender => packet_sender;; mret tt
  | Call_keepalive_config => keepalive_config;; mret tt
  | Call_SetAllocatedSendBitrateLimits a b c => SetAllocatedSendBitrateLimits a b c
  | Call_SetKeepAliveConfig config => SetKeepAliveConfig config
  | Call_SetPacingFactor f => SetPacingFactor f
  | Call_SetQueueTimeLimit l => SetQueueTimeLimit l
  | Call_GetCallStatsObserver => GetCallStatsObserver;; mret tt
  | Call_RegisterPacketFeedbackObserver o => RegisterPacketFeedbackObserver o
  | Call_DeRegisterPacketFeedbackObserver o => DeRegisterPacketFeedbackObserver o
  | Call_RegisterNetworkObserver o => RegisterNetworkObserver o
  | Call_OnNetworkRouteChanged n r => OnNetworkRouteChanged n r
  | Call_OnNetworkAvailability b => OnNetworkAvailability b
  | Call_GetBandwidthObserver => GetBandwidthObserver;; mret tt
  | Call_AvailableBandwidth p => AvailableBandwidth p;; mret tt
  | Call_GetPacerQueuingDelayMs => GetPacerQueuingDelayMs;; mret tt
  | Call_GetFirstPacketTimeMs => GetFirstPacketTimeMs;; mret tt
  | Call_EnablePeriodicAlrProbing e => EnablePeriodicAlrProbing e
  | Call_OnSentPacket p => OnSentPacket p
  | Call_SetSdpBitrateParameters c => SetSdpBitrateParameters c
  | Call_SetClientBitratePreferences p => SetClientBitratePreferences p
  end.

(** Runs the calls one after the other; a halted call ends the run. *)
Fixpoint run (ops : list Op) : M unit :=
  match ops with
  | [] => mret tt
  | o :: rest => exec o;; run rest
  end.

(** Construction followed by a script of calls. *)
Definition lifetime (clock event_log : ptr) (bitrate_config : BitrateConstraints)
    (ops : list Op) : Outcome unit :=
  match RtpTransportControllerSend_ctor clock event_log bitrate_config with
  | (_, s0, t0) =>
      match run ops s0 with
      | (r, s, t) => (r, s, t0 ++ t)
      end
  end.

(** *** Vocabulary of the properties *)

(** The reset that a changed route sends to the estimator. *)
Definition reset_of (r : NetworkRoute) (cfg : BitrateConstraints) : Event :=
  Cc (SendSideCongestionController.OnNetworkRouteChanged
        r (start_bitrate_bps cfg) (min_bitrate_bps cfg) (max_bitrate_bps cfg)).

(** The log line of an update that changes nothing. *)
Definition nothing_to_update (who : string) : Event :=
  Log LS_VERBOSE [Str who; Str "nothing to update"].

(** The effective config that a route change reads. *)
Definition current_config (st : RtpTransportControllerSend) : BitrateConstraints :=
  RtpBitrateConfigurator.GetConfig (bitrate_configurator_ st).

(** The route of every entry of the table is connected. *)
Definition routes_connected (st : RtpTransportControllerSend) : Prop :=
  map_Forall (fun _ r => connected r = true) (network_routes_ st).

End Controller.

(** ** The periodic worker *)

Module Worker.

(** Modelled from the spec: the process thread is defined outside the
    sources. Section 4.4 of the spec gives it a set of registered modules
    and a tick loop that [Start] begins and that [Stop] ends, with no tick
    dispatched after [Stop] has returned. *)
Record t := {
  running : bool;
  modules : list PeriodicModule;
}.

(** Modelled from the spec: a freshly created worker. *)
Definition create : t := {| running := false; modules := [] |}.

(** Modelled from the spec: the effect of each call of the primitive. *)
Definition step (w : t) (c : ProcessThread.Call) : t :=
  match c with
  | ProcessThread.RegisterModule m =>
      {| running := running w; modules := m :: modules w |}
  | ProcessThread.DeRegisterModule m =>
      {| running := running w;
         modules := List.filter (fun x => negb (bool_decide (x = m))) (modules w) |}
  | ProcessThread.Start => {| running := true; modules := modules w |}
  | ProcessThread.Stop => {| running := false; modules := modules w |}
  end.

(** Modelled from the spec: a tick of a module can be dispatched only
    while the loop runs and the module is registered. *)
Definition may_tick (w : t) (m : PeriodicModule) : bool :=
  running w && bool_decide (m ∈ modules w).

End Worker.

(** The calls on the process thread among the events, in order. *)
Fixpoint thread_calls (tr : list Event) : list ProcessThread.Call :=
  match tr with
  | [] => []
  | Thread c :: rest => c :: thread_calls rest
  | _ :: rest => thread_calls rest
  end.

(** The worker after it has received the process-thread calls of a trace. *)
Definition worker_after (tr : list Event) (w : Worker.t) : Worker.t :=
  fold_left Worker.step (thread_calls tr) w.

Definition registered_in (tr : list Event) : list PeriodicModule :=
  List.flat_map (fun c => match c with
                          | ProcessThread.RegisterModule m => [m]
                          | _ => []
                          end) (thread_calls tr).

Definition deregistered_in (tr : list Event) : list PeriodicModule :=
  List.flat_map (fun c => match c with
                          | ProcessThread.DeRegisterModule m => [m]
                          | _ => []
                          end) (thread_calls tr).

(** ** Vocabulary for scripts of calls *)

Section Scripts.

Context {RtpKeepAliveConfig : Type}.
Implicit Types (o : @Op RtpKeepAliveConfig).

(** The two calls that feed the merger. *)
Definition is_bitrate_update o : bool :=
  match o with
  | Call_SetSdpBitrateParameters _ => true
  | Call_SetClientBitratePreferences _ => true
  | _ => false
  end.

(** The calls whose member function assigns to a member. *)
Definition is_mutator o : bool :=
  match o with
  | Call_SetKeepAliveConfig _ => true
  | Call_OnNetworkRouteChanged _ _ => true
  | Call_SetSdpBitrateParameters _ => true
  | Call_SetClientBitratePreferences _ => true
  | _ => false
  end.

Definition is_connected_observation o : bool :=
  match o with
  | Call_OnNetworkRouteChanged _ r => connected r
  | _ => false
  end.

Definition is_disconnected_observation o : bool :=
  match o with
  | Call_OnNetworkRouteChanged _ r => negb (connected r)
  | _ => false
  end.

(** A table that records each connected observation under its name. *)
Definition observe (tbl : gmap string NetworkRoute) o : gmap string NetworkRoute :=
  match o with
  | Call_OnNetworkRouteChanged n r => if connected r then <[n := r]> tbl else tbl
  | _ => tbl
  end.

(** The calls on collaborators that a call without assignment makes. *)
Definition forwards o : list Event :=
  match o with
  | Call_SetAllocatedSendBitrateLimits a b c =>
      [Pacer (PacedSender.SetSendBitrateLimits a b);
       Cc (SendSideCongestionController.SetMaxTotalAllocatedBitrate c)]
  | Call_SetPacingFactor f => [Pacer (PacedSender.SetPacingFactor f)]
  | Call_SetQueueTimeLimit l => [Pacer (PacedSender.SetQueueTimeLimit l)]
  | Call_RegisterPacketFeedbackObserver p =>
      [Cc (SendSideCongestionController.RegisterPacketFeedbackObserver p)]
  | Call_DeRegisterPacketFeedbackObserver p =>
      [Cc (SendSideCongestionController.DeRegisterPacketFeedbackObserver p)]
  | Call_RegisterNetworkObserver p =>
      [Cc (SendSideCongestionController.RegisterNetworkObserver p)]
  | Call_OnNetworkAvailability b =>
      [Cc (SendSideCongestionController.SignalNetworkState
             (if b then kNetworkUp else kNetworkDown))]
  | Call_GetBandwidthObserver => [Cc SendSideCongestionController.GetBandwidthObserver]
  | Call_AvailableBandwidth p => [Cc (SendSideCongestionController.AvailableBandwidth p)]
  | Call_GetPacerQueuingDelayMs => [Pacer PacedSender.QueueInMs]
  | Call_GetFirstPacketTimeMs => [Pacer PacedSender.FirstSentPacketTimeMs]
  | Call_EnablePeriodicAlrProbing e =>
      [Cc (SendSideCongestionController.EnablePeriodicAlrProbing e)]
  | Call_OnSentPacket p => [Cc (SendSideCongestionController.OnSentPacket p)]
  | _ => []
  end.

Definition is_log (e : Event) : bool :=
  match e with
  | Log _ _ => true
  | _ => false
  end.

(** The events of the member functions that assign to a member: log lines,
    and the two calls that push a config to the estimator. *)
Definition is_log_or_push (e : Event) : bool :=
  is_log e || is_reset e || is_SetBweBitrates e.

(** Every write under a lock, for a reading [is_acquire] of which events
    take the lock: a call that changes a member has such an event. *)
Definition mutations_under_lock (is_acquire : Event -> bool) : Prop :=
  forall o (st : @RtpTransportControllerSend RtpKeepAliveConfig),
    state_of (exec o st) <> st ->
    existsb is_acquire (trace_of (exec o st)) = true.

End Scripts.

(** ** Concrete values for examples *)

Module Scenario.

Definition r1 : NetworkRoute :=
  {| connected := true; local_network_id := 1; remote_network_id := 1 |}.

Definition r2 : NetworkRoute :=
  {| connected := true; local_network_id := 1; remote_network_id := 2 |}.

Definition r_down : NetworkRoute :=
  {| connected := false; local_network_id := 1; remote_network_id := 2 |}.

(** The constraints of the scenario of the spec. *)
Definition constraints : BitrateConstraints :=
  {| min_bitrate_bps := 50000; start_bitrate_bps := 300000;
     max_bitrate_bps := 2500000 |}.

(** Constraints with every field unset. *)
Definition unset : BitrateConstraints :=
  {| min_bitrate_bps := 0; start_bitrate_bps := 0; max_bitrate_bps := 0 |}.

Definition max_only : BitrateConstraintsMask :=
  {| mask_min_bitrate_bps := None; mask_start_bitrate_bps := None;
     mask_max_bitrate_bps := Some 1000000 |}.

(** Keepalive configs are plain numbers here; the default is [0]. *)
Definition fresh : @RtpTransportControllerSend Z :=
  state_of (lifetime 0 0 0 constraints []).

Definition with_t1 : @RtpTransportControllerSend Z :=
  state_of (lifetime 0 0 0 constraints [Call_OnNetworkRouteChanged "t1" r1]).

Definition unset_with_t1 : @RtpTransportControllerSend Z :=
  state_of (lifetime 0 0 0 unset [Call_OnNetworkRouteChanged "t1" r1]).

End Scenario.

(** * Properties *)

Lemma NetworkRoute_ne_true (a b : NetworkRoute) :
  NetworkRoute_ne a b = true <-> a <> b.
Proof.
  unfold NetworkRoute_ne. destruct a as [c1 l1 r1], b as [c2 l2 r2]; simpl.
  rewrite negb_true_iff, !andb_false_iff, bool_decide_eq_false, !Z.eqb_neq.
  split.
  - intros H E. injection E as -> -> ->. destruct H as [[H|H]|H]; congruence.
  - intros H. destruct (decide (c1 = c2)) as [->|]; [|tauto].
    destruct (decide (l1 = l2)) as [->|]; [|tauto].
    right. intros ->. congruence.
Qed.

Lemma NetworkRoute_ne_refl (a : NetworkRoute) : NetworkRoute_ne a a = false.
Proof.
  destruct (NetworkRoute_ne a a) eqn:E; [|done].
  apply NetworkRoute_ne_true in E. congruence.
Qed.

(** Unfolds the plumbing of [M] down to pairs and lists. *)
Ltac run_M :=
  repeat (unfold mbind, mret, M_bind, M_ret, get, modify, emit, halt,
            RTC_LOG, RTC_DCHECK_GT, pacer_call, send_side_cc_call,
            process_thread_call, network_routes_assign,
            bitrate_configurator_GetConfig,
            bitrate_configurator_UpdateWithSdpParameters,
            bitrate_configurator_UpdateWithClientPreferences in *;
          simpl in *).

(** Refutes the membership [H] of an event in a trace of other events. *)
Ltac not_in_trace H :=
  repeat (apply elem_of_cons in H as [H|H]; [discriminate|]);
  apply elem_of_nil in H.

Section Properties.

Context {RtpKeepAliveConfig : Type}.
Implicit Types (st : @RtpTransportControllerSend RtpKeepAliveConfig).
Implicit Types (name : string) (r : NetworkRoute).

(** ** Route changes, by case *)

Lemma OnNetworkRouteChanged_disconnected st name r :
  connected r = false ->
  OnNetworkRouteChanged name r st
  = (Done tt, st, [Log LS_INFO (disconnected_message name)]).
Proof. intros H. unfold OnNetworkRouteChanged. rewrite H. reflexivity. Qed.

Lemma OnNetworkRouteChanged_first st name r :
  connected r = true ->
  network_routes_ st !! name = None ->
  OnNetworkRouteChanged name r st
  = (Done tt, set_network_routes_ (<[name := r]> (network_routes_ st)) st, []).
Proof.
  intros Hc Hl. unfold OnNetworkRouteChanged. rewrite Hc. simpl.
  unfold mbind, M_bind, network_routes_insert. rewrite Hl. reflexivity.
Qed.

Lemma OnNetworkRouteChanged_same st name r :
  connected r = true ->
  network_routes_ st !! name = Some r ->
  OnNetworkRouteChanged name r st = (Done tt, st, []).
Proof.
  intros Hc Hl. unfold OnNetworkRouteChanged. rewrite Hc. simpl.
  unfold mbind, M_bind, network_routes_insert. rewrite Hl.
  rewrite NetworkRoute_ne_refl. reflexivity.
Qed.

Lemma OnNetworkRouteChanged_reset st name r1 r2 :
  connected r2 = true ->
  network_routes_ st !! name = Some r1 ->
  r2 <> r1 ->
  0 < start_bitrate_bps (current_config st) ->
  OnNetworkRouteChanged name r2 st
  = (Done tt,
     set_network_routes_ (<[name := r2]> (network_routes_ st)) st,
     [Log LS_INFO (route_changed_message name r2 (current_config st));
      reset_of r2 (current_config st)]).
Proof.
  intros Hc Hl Hne Hs. unfold OnNetworkRouteChanged. rewrite Hc. simpl.
  unfold mbind, M_bind, network_routes_insert. rewrite Hl.
  assert (NetworkRoute_ne r1 r2 = true) as ->
    by (apply NetworkRoute_ne_true; congruence).
  unfold current_config in *. run_M.
  match goal with
  | |- context [?a >? ?b] => destruct (Z.gtb_spec a b); [|lia]
  end.
  reflexivity.
Qed.

Lemma OnNetworkRouteChanged_halt st name r1 r2 :
  connected r2 = true ->
  network_routes_ st !! name = Some r1 ->
  r2 <> r1 ->
  start_bitrate_bps (current_config st) <= 0 ->
  OnNetworkRouteChanged name r2 st
  = (Halted,
     set_network_routes_ (<[name := r2]> (network_routes_ st)) st,
     [Log LS_INFO (route_changed_message name r2 (current_config st))]).
Proof.
  intros Hc Hl Hne Hs. unfold OnNetworkRouteChanged. rewrite Hc. simpl.
  unfold mbind, M_bind, network_routes_insert. rewrite Hl.
  assert (NetworkRoute_ne r1 r2 = true) as ->
    by (apply NetworkRoute_ne_true; congruence).
  unfold current_config in *. run_M.
  match goal with
  | |- context [?a >? ?b] => destruct (Z.gtb_spec a b); [lia|]
  end.
  reflexivity.
Qed.

(** The five ways a route observation can end. *)
Lemma OnNetworkRouteChanged_cases st name r :
  let cfg := current_config st in
  let st' := set_network_routes_ (<[name := r]> (network_routes_ st)) st in
  let out := OnNetworkRouteChanged name r st in
  (connected r = false /\
     out = (Done tt, st, [Log LS_INFO (disconnected_message name)]))
  \/ (connected r = true /\ network_routes_ st !! name = None /\
      out = (Done tt, st', []))
  \/ (connected r = true /\ network_routes_ st !! name = Some r /\
      out = (Done tt, st, []))
  \/ (connected r = true /\ 0 < start_bitrate_bps cfg /\
      (exists r1, network_routes_ st !! name = Some r1 /\ r <> r1) /\
      out = (Done tt, st',
             [Log LS_INFO (route_changed_message name r cfg); reset_of r cfg]))
  \/ (connected r = true /\ start_bitrate_bps cfg <= 0 /\
      (exists r1, network_routes_ st !! name = Some r1 /\ r <> r1) /\
      out = (Halted, st', [Log LS_INFO (route_changed_message name r cfg)])).
Proof.
  intros cfg st' out. subst out.
  destruct (connected r) eqn:Hc.
  2: { left. split; [done|]. by apply OnNetworkRouteChanged_disconnected. }
  right. destruct (network_routes_ st !! name) as [r1|] eqn:Hl.
  2: { left. repeat split; try done. by apply OnNetworkRouteChanged_first. }
  right. destruct (decide (r = r1)) as [<-|Hne].
  { left. repeat split; try done. by apply OnNetworkRouteChanged_same. }
  right. destruct (Z.lt_ge_cases 0 (start_bitrate_bps cfg)) as [Hs|Hs].
  - left. repeat split; try done; [by exists r1|].
    by apply OnNetworkRouteChanged_reset with r1.
  - right. repeat split; try done; [by exists r1|].
    by apply OnNetworkRouteChanged_halt with r1.
Qed.

(** ** Claims about route changes *)

(** C1, as amended: when [name] has a stored route [r1], the observed
    route [r2] is connected and differs from [r1], and the start bitrate of
    the current effective config is positive, [OnNetworkRouteChanged]
    returns normally, changes nothing but the stored route of [name], which
    becomes [r2], and its only call on a collaborator is one estimator
    reset carrying [r2] with the start, min and max of that config. *)
Theorem route_change_resets_once st name r1 r2 :
  network_routes_ st !! name = Some r1 ->
  connected r2 = true ->
  r2 <> r1 ->
  0 < start_bitrate_bps (current_config st) ->
  let out := OnNetworkRouteChanged name r2 st in
  status_of out = Done tt
  /\ state_of out = set_network_routes_ (<[name := r2]> (network_routes_ st)) st
  /\ network_routes_ (state_of out) !! name = Some r2
  /\ resets (trace_of out) = [reset_of r2 (current_config st)]
  /\ downstream (trace_of out) = [reset_of r2 (current_config st)].
Proof.
  intros Hl Hc Hne Hs out. subst out.
  rewrite (OnNetworkRouteChanged_reset st name r1 r2 Hc Hl Hne Hs).
  unfold status_of, state_of, trace_of. simpl.
  repeat split; try reflexivity.
  apply lookup_insert_eq.
Qed.

(** C2: for a connected route [r], when [name] has no stored route the
    call returns normally without any event, so without an estimator reset,
    and afterwards the table is the one before with [r] stored under
    [name], so that looking [name] up gives [r], while the merger and the
    keepalive config are the ones before; when the stored route of [name]
    equals [r] the call returns normally without any event and changes
    nothing. *)
Theorem route_first_or_same_no_reset st name r :
  connected r = true ->
  (network_routes_ st !! name = None ->
     let out := OnNetworkRouteChanged name r st in
     out = (Done tt, set_network_routes_ (<[name := r]> (network_routes_ st)) st, [])
     /\ status_of out = Done tt
     /\ trace_of out = []
     /\ network_routes_ (state_of out) = <[name := r]> (network_routes_ st)
     /\ network_routes_ (state_of out) !! name = Some r
     /\ (forall other, other <> name ->
           network_routes_ (state_of out) !! other = network_routes_ st !! other)
     /\ bitrate_configurator_ (state_of out) = bitrate_configurator_ st
     /\ keepalive_ (state_of out) = keepalive_ st)
  /\ (network_routes_ st !! name = Some r ->
        let out := OnNetworkRouteChanged name r st in
        out = (Done tt, st, [])
        /\ status_of out = Done tt
        /\ trace_of out = []
        /\ network_routes_ (state_of out) = network_routes_ st
        /\ network_routes_ (state_of out) !! name = Some r).
Proof.
  intros Hc. split; intros Hl out; subst out.
  - rewrite (OnNetworkRouteChanged_first st name r Hc Hl).
    unfold status_of, state_of, trace_of. simpl.
    repeat split.
    + apply lookup_insert_eq.
    + intros other Hne. by apply lookup_insert_ne.
  - rewrite (OnNetworkRouteChanged_same st name r Hc Hl).
    unfold status_of, state_of, trace_of. simpl.
    repeat split. exact Hl.
Qed.

(** C3: for a route that is not connected, whatever the table holds, the
    call returns normally with every member unchanged, and its only event
    is the log line: no call reaches a collaborator. *)
Theorem route_disconnected_ignored st name r :
  connected r = false ->
  let out := OnNetworkRouteChanged name r st in
  out = (Done tt, st, [Log LS_INFO (disconnected_message name)])
  /\ network_routes_ (state_of out) = network_routes_ st
  /\ downstream (trace_of out) = [].
Proof.
  intros Hc out. subst out.
  rewrite (OnNetworkRouteChanged_disconnected st name r Hc). done.
Qed.

(** C5: no reset that [OnNetworkRouteChanged] sends carries a start
    bitrate that is not positive; with a positive effective start bitrate
    the call is never halted; and on a changed route with an effective
    start bitrate that is not positive the call is halted by the check
    without any call on a collaborator. *)
Theorem route_reset_start_positive st name r :
  let out := OnNetworkRouteChanged name r st in
  (forall r' start_bps min_bps max_bps,
      Cc (SendSideCongestionController.OnNetworkRouteChanged
            r' start_bps min_bps max_bps) ∈ trace_of out ->
      0 < start_bps)
  /\ (0 < start_bitrate_bps (current_config st) -> status_of out = Done tt)
  /\ (forall r1,
        network_routes_ st !! name = Some r1 ->
        connected r = true ->
        r <> r1 ->
        start_bitrate_bps (current_config st) <= 0 ->
        status_of out = Halted /\ downstream (trace_of out) = []).
Proof.
  intros out. subst out.
  destruct (OnNetworkRouteChanged_cases st name r)
    as [(Hc & ->)|[(Hc & Hl & ->)|[(Hc & Hl & ->)
       |[(Hc & Hs & (r1 & Hl & Hne) & ->)|(Hc & Hs & (r1 & Hl & Hne) & ->)]]]];
    unfold status_of, trace_of; simpl.
  - split; [|split]; [|done|congruence].
    intros ? ? ? ? Hin. by not_in_trace Hin.
  - split; [|split]; [|done|congruence].
    intros ? ? ? ? Hin. by not_in_trace Hin.
  - split; [|split]; [|done|].
    + intros ? ? ? ? Hin. by not_in_trace Hin.
    + intros r1 Hl1. rewrite Hl in Hl1. congruence.
  - split; [|split]; [|done|intros; lia].
    intros ? ? ? ? Hin. unfold reset_of in Hin.
    apply elem_of_cons in Hin as [Hin|Hin]; [discriminate|].
    apply list_elem_of_singleton in Hin. by injection Hin as -> -> -> ->.
  - split; [|split]; [|intros; lia|done].
    intros ? ? ? ? Hin. by not_in_trace Hin.
Qed.

(** C10: on a changed route with an effective start bitrate that is not
    positive, the call is halted with the table already holding the new
    route for [name]: the members are not those the call started from. *)
Theorem route_overwritten_before_check st name r1 r2 :
  network_routes_ st !! name = Some r1 ->
  connected r2 = true ->
  r2 <> r1 ->
  start_bitrate_bps (current_config st) <= 0 ->
  let out := OnNetworkRouteChanged name r2 st in
  status_of out = Halted
  /\ network_routes_ (state_of out) !! name = Some r2
  /\ resets (trace_of out) = []
  /\ state_of out <> st.
Proof.
  intros Hl Hc Hne Hs out. subst out.
  rewrite (OnNetworkRouteChanged_halt st name r1 r2 Hc Hl Hne Hs).
  unfold status_of, state_of, trace_of. simpl.
  repeat split.
  - apply lookup_insert_eq.
  - intros E. apply (f_equal (fun s => network_routes_ s !! name)) in E.
    simpl in E. rewrite lookup_insert_eq, Hl in E. congruence.
Qed.

(** ** Bitrate updates *)

Lemma SetSdpBitrateParameters_eq st c :
  SetSdpBitrateParameters c st
  = let u := RtpBitrateConfigurator.UpdateWithSdpParameters
               c (bitrate_configurator_ st) in
    (Done tt, set_bitrate_configurator_ u.2 st,
     match u.1 with
     | Some e => [SetBweBitrates_of e]
     | None => [nothing_to_update
                  "WebRTC.RtpTransportControllerSend.SetSdpBitrateParameters: "]
     end).
Proof.
  unfold SetSdpBitrateParameters. run_M.
  destruct (RtpBitrateConfigurator.UpdateWithSdpParameters c
              (bitrate_configurator_ st)) as [[e|] cfg']; reflexivity.
Qed.

Lemma SetClientBitratePreferences_eq st p :
  SetClientBitratePreferences p st
  = let u := RtpBitrateConfigurator.UpdateWithClientPreferences
               p (bitrate_configurator_ st) in
    (Done tt, set_bitrate_configurator_ u.2 st,
     match u.1 with
     | Some e => [SetBweBitrates_of e]
     | None => [nothing_to_update
                  "WebRTC.RtpTransportControllerSend.SetClientBitratePreferences: "]
     end).
Proof.
  unfold SetClientBitratePreferences. run_M.
  destruct (RtpBitrateConfigurator.UpdateWithClientPreferences p
              (bitrate_configurator_ st)) as [[e|] cfg']; reflexivity.
Qed.

(** A second update with the same base reports no change. *)
Lemma UpdateWithSdpParameters_twice (c : BitrateConstraints)
    (cfg : RtpBitrateConfigurator.t) :
  (RtpBitrateConfigurator.UpdateWithSdpParameters c
     (RtpBitrateConfigurator.UpdateWithSdpParameters c cfg).2).1 = None.
Proof.
  unfold RtpBitrateConfigurator.UpdateWithSdpParameters,
    RtpBitrateConfigurator.UpdateConstraints.
  destruct (decide (RtpBitrateConfigurator.merge c (RtpBitrateConfigurator.mask cfg)
                    = RtpBitrateConfigurator.effective cfg)) as [E|E]; simpl.
  - rewrite decide_True by done. reflexivity.
  - rewrite decide_True by done. reflexivity.
Qed.

(** C4: each of the two update operations returns normally and calls
    [SetBweBitrates] on the estimator, with the min, start and max of the
    config that the merger returned, exactly when the merger returned one;
    when the merger returned nothing the operation makes no call on a
    collaborator. Two calls of [SetSdpBitrateParameters] in a row with the
    same constraints make at most one call on a collaborator: the second
    makes none. *)
Theorem bitrate_update_propagation st :
  (forall c,
      let u := RtpBitrateConfigurator.UpdateWithSdpParameters
                 c (bitrate_configurator_ st) in
      let out := SetSdpBitrateParameters c st in
      status_of out = Done tt
      /\ downstream (trace_of out)
         = match u.1 with Some e => [SetBweBitrates_of e] | None => [] end)
  /\ (forall p,
        let u := RtpBitrateConfigurator.UpdateWithClientPreferences
                   p (bitrate_configurator_ st) in
        let out := SetClientBitratePreferences p st in
        status_of out = Done tt
        /\ downstream (trace_of out)
           = match u.1 with Some e => [SetBweBitrates_of e] | None => [] end)
  /\ (forall c,
        let first := SetSdpBitrateParameters c st in
        let second := SetSdpBitrateParameters c (state_of first) in
        downstream (trace_of second) = []
        /\ (length (downstream (trace_of first ++ trace_of second)) <= 1)%nat).
Proof.
  split; [|split].
  - intros c u out. subst out. rewrite SetSdpBitrateParameters_eq.
    fold u. unfold status_of, trace_of. simpl. split; [done|].
    by destruct (u.1).
  - intros p u out. subst out. rewrite SetClientBitratePreferences_eq.
    fold u. unfold status_of, trace_of. simpl. split; [done|].
    by destruct (u.1).
  - intros c first second. subst first second.
    rewrite !SetSdpBitrateParameters_eq. unfold state_of, trace_of. simpl.
    rewrite UpdateWithSdpParameters_twice. split; [done|].
    unfold downstream. rewrite List.filter_app, length_app. simpl.
    destruct ((RtpBitrateConfigurator.UpdateWithSdpParameters c
                 (bitrate_configurator_ st)).1); simpl; lia.
Qed.

(** ** Scripts of calls *)

Lemma run_cons (o : Op) (ops : list Op) st :
  run (o :: ops) st
  = match exec o st with
    | (Done _, s1, t1) =>
        match run ops s1 with
        | (r, s2, t2) => (r, s2, t1 ++ t2)
        end
    | (Halted, s1, t1) => (Halted, s1, t1)
    end.
Proof. reflexivity. Qed.

(** A property of the members that every allowed call keeps is kept by a
    script of allowed calls. *)
Lemma run_preserves (P : RtpTransportControllerSend -> Prop) (allowed : Op -> bool) :
  (forall o st, allowed o = true -> P st -> P (state_of (exec o st))) ->
  forall ops st,
    forallb allowed ops = true -> P st -> P (state_of (run ops st)).
Proof.
  intros Hstep ops. induction ops as [|o ops IH]; intros st Hall HP.
  - exact HP.
  - simpl in Hall. apply andb_true_iff in Hall as [Ho Hops].
    rewrite run_cons.
    specialize (Hstep o st Ho HP).
    destruct (exec o st) as [[[[]|] s1] t1]; unfold state_of in *; simpl in *.
    + specialize (IH s1 Hops Hstep).
      destruct (run ops s1) as [[r s2] t2]. exact IH.
    + exact Hstep.
Qed.

(** A property that holds of every event of every call holds of every
    event of a script. *)
Lemma run_trace_Forall (Q : Event -> Prop) :
  (forall o st, Forall Q (trace_of (exec o st))) ->
  forall ops st, Forall Q (trace_of (run ops st)).
Proof.
  intros Hstep ops. induction ops as [|o ops IH]; intros st.
  - constructor.
  - rewrite run_cons. specialize (Hstep o st).
    destruct (exec o st) as [[[[]|] s1] t1]; unfold trace_of in *; simpl in *.
    + specialize (IH s1). destruct (run ops s1) as [[r s2] t2]. simpl in *.
      apply Forall_app. by split.
    + exact Hstep.
Qed.

(** What one call does to the members. *)
Lemma exec_state (o : Op) st :
  state_of (exec o st)
  = match o with
    | Call_SetKeepAliveConfig c => set_keepalive_ c st
    | Call_OnNetworkRouteChanged n r => state_of (OnNetworkRouteChanged n r st)
    | Call_SetSdpBitrateParameters c => state_of (SetSdpBitrateParameters c st)
    | Call_SetClientBitratePreferences p =>
        state_of (SetClientBitratePreferences p st)
    | _ => st
    end.
Proof. destruct o; reflexivity. Qed.

Lemma OnNetworkRouteChanged_state st name r :
  state_of (OnNetworkRouteChanged name r st) = st
  \/ (connected r = true
      /\ state_of (OnNetworkRouteChanged name r st)
         = set_network_routes_ (<[name := r]> (network_routes_ st)) st).
Proof.
  destruct (OnNetworkRouteChanged_cases st name r)
    as [(Hc & ->)|[(Hc & Hl & ->)|[(Hc & Hl & ->)
       |[(Hc & Hs & _ & ->)|(Hc & Hs & _ & ->)]]]]; auto.
Qed.

Lemma exec_keepalive (o : Op) st :
  is_SetKeepAliveConfig o = false ->
  keepalive_ (state_of (exec o st)) = keepalive_ st.
Proof.
  intros Ho. rewrite exec_state. destruct o; try reflexivity; try discriminate.
  - destruct (OnNetworkRouteChanged_state st transport_name network_route)
      as [->|[_ ->]]; reflexivity.
  - rewrite SetSdpBitrateParameters_eq. reflexivity.
  - rewrite SetClientBitratePreferences_eq. reflexivity.
Qed.

Lemma exec_network_routes (o : Op) st :
  network_routes_ (state_of (exec o st))
  = match o with
    | Call_OnNetworkRouteChanged n r =>
        network_routes_ (state_of (OnNetworkRouteChanged n r st))
    | _ => network_routes_ st
    end.
Proof.
  rewrite exec_state. destruct o; try reflexivity.
  - rewrite SetSdpBitrateParameters_eq. reflexivity.
  - rewrite SetClientBitratePreferences_eq. reflexivity.
Qed.

Lemma exec_routes_connected (o : Op) st :
  routes_connected st -> routes_connected (state_of (exec o st)).
Proof.
  unfold routes_connected. rewrite exec_network_routes.
  destruct o; try done. intros H.
  destruct (OnNetworkRouteChanged_state st transport_name network_route)
    as [->|[Hc ->]]; [done|].
  simpl. by apply map_Forall_insert_2.
Qed.

Lemma exec_no_thread_call (o : Op) st :
  Forall (fun e => thread_calls [e] = []) (trace_of (exec o st)).
Proof.
  destruct o; try (repeat constructor; fail).
  - simpl. destruct (OnNetworkRouteChanged_cases st transport_name network_route)
      as [(Hc & ->)|[(Hc & Hl & ->)|[(Hc & Hl & ->)
         |[(Hc & Hs & _ & ->)|(Hc & Hs & _ & ->)]]]]; repeat constructor.
  - simpl. rewrite SetSdpBitrateParameters_eq. unfold trace_of. simpl.
    destruct ((RtpBitrateConfigurator.UpdateWithSdpParameters _ _).1);
      repeat constructor.
  - simpl. rewrite SetClientBitratePreferences_eq. unfold trace_of. simpl.
    destruct ((RtpBitrateConfigurator.UpdateWithClientPreferences _ _).1);
      repeat constructor.
Qed.

End Properties.

Lemma thread_calls_app (t1 t2 : list Event) :
  thread_calls (t1 ++ t2) = thread_calls t1 ++ thread_calls t2.
Proof.
  induction t1 as [|e t1 IH]; [reflexivity|].
  destruct e; simpl; rewrite IH; reflexivity.
Qed.

Lemma thread_calls_none (tr : list Event) :
  Forall (fun e => thread_calls [e] = []) tr -> thread_calls tr = [].
Proof.
  induction 1 as [|e tr He _ IH]; [reflexivity|].
  destruct e; simpl in *; try done.
Qed.

Section Lifetime.

Context {RtpKeepAliveConfig : Type}.
Variable keepalive_default : RtpKeepAliveConfig.
Implicit Types (st : @RtpTransportControllerSend RtpKeepAliveConfig).

(** C8: [SetKeepAliveConfig c] returns normally, replaces the stored
    config by [c], changes no other member and makes no call or log line;
    from then on, through any script of calls that has no
    [SetKeepAliveConfig], the accessor returns [c]. *)
Theorem keepalive_last_write_wins st (c : RtpKeepAliveConfig) (ops : list Op) :
  forallb (fun o => negb (is_SetKeepAliveConfig o)) ops = true ->
  let out := SetKeepAliveConfig c st in
  out = (Done tt, set_keepalive_ c st, [])
  /\ bitrate_configurator_ (state_of out) = bitrate_configurator_ st
  /\ network_routes_ (state_of out) = network_routes_ st
  /\ status_of (keepalive_config (state_of out)) = Done c
  /\ status_of (keepalive_config (state_of (run ops (state_of out)))) = Done c.
Proof.
  intros Hops out. subst out.
  repeat split.
  unfold keepalive_config, status_of. run_M. f_equal.
  apply (run_preserves (fun s => keepalive_ s = c)
           (fun o => negb (is_SetKeepAliveConfig o))); [|exact Hops|reflexivity].
  intros o s Ho Hs. rewrite exec_keepalive; [exact Hs|].
  by apply negb_true_iff.
Qed.

(** C9: the table of a freshly constructed controller is empty, no call
    other than [OnNetworkRouteChanged] changes the table, and after
    construction and any script of calls every stored route is
    connected. *)
Theorem stored_routes_connected (clock event_log : ptr)
    (bitrate_config : BitrateConstraints) (ops : list Op) :
  network_routes_
    (state_of (RtpTransportControllerSend_ctor
                 keepalive_default clock event_log bitrate_config)) = ∅
  /\ (forall o st,
        network_routes_ (state_of (exec o st))
        = match o with
          | Call_OnNetworkRouteChanged n r =>
              network_routes_ (state_of (OnNetworkRouteChanged n r st))
          | _ => network_routes_ st
          end)
  /\ routes_connected
       (state_of (lifetime keepalive_default clock event_log bitrate_config ops)).
Proof.
  split; [reflexivity|]. split; [intros; apply exec_network_routes|].
  unfold lifetime.
  destruct (RtpTransportControllerSend_ctor keepalive_default clock event_log
              bitrate_config) as [[r0 s0] t0] eqn:E.
  assert (routes_connected s0) as H0.
  { injection E as _ <- _. unfold routes_connected. simpl.
    apply map_Forall_empty. }
  pose proof (run_preserves routes_connected (fun _ => true)
                (fun o s _ => exec_routes_connected o s) ops s0) as H.
  destruct (run ops s0) as [[r s] t]. unfold state_of in *. simpl in *.
  apply H; [|exact H0].
  clear. induction ops; simpl; auto.
Qed.

(** C7: the destructor returns normally after exactly three calls, all on
    the process thread: [Stop], then the deregistration of the congestion
    controller, then that of the pacer, which is the reverse of the order
    in which the constructor registered them. From the return of [Stop]
    on, whatever the worker's state was, no tick of a module can be
    dispatched; and after construction, any script of calls and the
    destructor, the worker is stopped with no module registered. *)
Theorem teardown_stops_then_deregisters (clock event_log : ptr)
    (bitrate_config : BitrateConstraints) (ops : list Op) st :
  let born := trace_of (RtpTransportControllerSend_ctor
                          keepalive_default clock event_log bitrate_config) in
  let lived := trace_of (lifetime keepalive_default clock event_log
                           bitrate_config ops) in
  let died := trace_of (RtpTransportControllerSend_dtor st) in
  status_of (RtpTransportControllerSend_dtor st) = Done tt
  /\ died = [Thread ProcessThread.Stop;
             Thread (ProcessThread.DeRegisterModule send_side_cc_module);
             Thread (ProcessThread.DeRegisterModule pacer_module)]
  /\ registered_in born = [pacer_module; send_side_cc_module]
  /\ deregistered_in died = rev (registered_in born)
  /\ (forall w m k,
        Worker.may_tick (worker_after (take (S k) died) w) m = false)
  /\ (forall m,
        Worker.may_tick (worker_after (lived ++ died) Worker.create) m = false)
  /\ Worker.modules (worker_after (lived ++ died) Worker.create) = [].
Proof.
  intros born lived died. subst born lived died.
  split; [reflexivity|]. split; [reflexivity|]. split; [reflexivity|].
  split; [reflexivity|]. split.
  { intros w m [|[|[|k]]]; reflexivity. }
  assert (thread_calls (trace_of (lifetime keepalive_default clock event_log
                                    bitrate_config ops))
          = [ProcessThread.RegisterModule pacer_module;
             ProcessThread.RegisterModule send_side_cc_module;
             ProcessThread.Start]) as Hlife.
  { unfold lifetime.
    pose proof (run_trace_Forall _ exec_no_thread_call ops
                  (state_of (RtpTransportControllerSend_ctor keepalive_default
                               clock event_log bitrate_config))) as H.
    apply thread_calls_none in H.
    unfold state_of, trace_of in *. simpl in *.
    destruct (run ops _) as [[r s] t]. simpl in *.
    rewrite H. reflexivity. }
  unfold worker_after. rewrite thread_calls_app, Hlife.
  split; [intros m|]; reflexivity.
Qed.

End Lifetime.

(** * Concrete instances *)

Import Scenario.

(** The merge of the spec: base [{100, 300, 1000}] with only the start
    overridden by [400]. *)
Example merge_start_only :
  RtpBitrateConfigurator.merge
    {| min_bitrate_bps := 100; start_bitrate_bps := 300; max_bitrate_bps := 1000 |}
    {| mask_min_bitrate_bps := None; mask_start_bitrate_bps := Some 400;
       mask_max_bitrate_bps := None |}
  = {| min_bitrate_bps := 100; start_bitrate_bps := 400; max_bitrate_bps := 1000 |}.
Proof. reflexivity. Qed.

(** The scenario of the spec, from construction on: the calls that reach
    the collaborators, in order. *)
Example spec_scenario :
  downstream
    (trace_of (lifetime 0 0 0 constraints
                 [Call_OnNetworkRouteChanged "t1" r1;
                  Call_OnNetworkRouteChanged "t1" r2;
                  Call_SetClientBitratePreferences max_only]))
  = [Cc (SendSideCongestionController.SignalNetworkState kNetworkDown);
     Cc (SendSideCongestionController.SetBweBitrates 50000 300000 2500000);
     Thread (ProcessThread.RegisterModule pacer_module);
     Thread (ProcessThread.RegisterModule send_side_cc_module);
     Thread ProcessThread.Start;
     Cc (SendSideCongestionController.OnNetworkRouteChanged r2 300000 50000 2500000);
     Cc (SendSideCongestionController.SetBweBitrates 50000 300000 1000000)].
Proof. vm_compute. reflexivity. Qed.

(** C1 as stated fails: constructed with every constraint unset, with [r1]
    stored for ["t1"], the observation of the connected route [r2], which
    differs from [r1], is halted by the check and no reset is sent. *)
Lemma route_change_unset_start_no_reset :
  network_routes_ unset_with_t1 !! "t1" = Some r1
  /\ connected r2 = true
  /\ r2 <> r1
  /\ status_of (OnNetworkRouteChanged "t1" r2 unset_with_t1) = Halted
  /\ resets (trace_of (OnNetworkRouteChanged "t1" r2 unset_with_t1)) = []
  /\ downstream (trace_of (OnNetworkRouteChanged "t1" r2 unset_with_t1)) = [].
Proof. vm_compute. repeat split. discriminate. Qed.

(** A changed route with the constraints of the scenario: one reset. *)
Lemma route_change_resets_once_witness :
  let out := OnNetworkRouteChanged "t1" r2 with_t1 in
  status_of out = Done tt
  /\ state_of out = set_network_routes_ (<["t1" := r2]> (network_routes_ with_t1)) with_t1
  /\ network_routes_ (state_of out) !! "t1" = Some r2
  /\ resets (trace_of out) = [reset_of r2 constraints]
  /\ downstream (trace_of out) = [reset_of r2 constraints].
Proof.
  apply (route_change_resets_once with_t1 "t1" r1 r2).
  - vm_compute. reflexivity.
  - reflexivity.
  - discriminate.
  - vm_compute. reflexivity.
Defined.

(** The first observation of ["t1"], and the same route observed again. *)
Lemma route_first_or_same_no_reset_witness :
  (let out := OnNetworkRouteChanged "t1" r1 fresh in
   out = (Done tt, set_network_routes_ (<["t1" := r1]> (network_routes_ fresh)) fresh, [])
   /\ status_of out = Done tt
   /\ trace_of out = []
   /\ network_routes_ (state_of out) = <["t1" := r1]> (network_routes_ fresh)
   /\ network_routes_ (state_of out) !! "t1" = Some r1
   /\ (forall other, other <> "t1" ->
         network_routes_ (state_of out) !! other = network_routes_ fresh !! other)
   /\ bitrate_configurator_ (state_of out) = bitrate_configurator_ fresh
   /\ keepalive_ (state_of out) = keepalive_ fresh)
  /\ (let out := OnNetworkRouteChanged "t1" r1 with_t1 in
      out = (Done tt, with_t1, [])
      /\ status_of out = Done tt
      /\ trace_of out = []
      /\ network_routes_ (state_of out) = network_routes_ with_t1
      /\ network_routes_ (state_of out) !! "t1" = Some r1).
Proof.
  split.
  - apply (proj1 (route_first_or_same_no_reset fresh "t1" r1 eq_refl)).
    vm_compute. reflexivity.
  - apply (proj2 (route_first_or_same_no_reset with_t1 "t1" r1 eq_refl)).
    vm_compute. reflexivity.
Defined.

(** A disconnected route for a name that has a stored route. *)
Lemma route_disconnected_ignored_witness :
  let out := OnNetworkRouteChanged "t1" r_down with_t1 in
  out = (Done tt, with_t1, [Log LS_INFO (disconnected_message "t1")])
  /\ network_routes_ (state_of out) = network_routes_ with_t1
  /\ downstream (trace_of out) = [].
Proof.
  apply (route_disconnected_ignored with_t1 "t1" r_down). reflexivity.
Defined.

(** A changed route with a positive start bitrate, and with none set. *)
Lemma route_reset_start_positive_witness :
  status_of (OnNetworkRouteChanged "t1" r2 with_t1) = Done tt
  /\ status_of (OnNetworkRouteChanged "t1" r2 unset_with_t1) = Halted
  /\ downstream (trace_of (OnNetworkRouteChanged "t1" r2 unset_with_t1)) = [].
Proof.
  split.
  - apply (proj1 (proj2 (route_reset_start_positive with_t1 "t1" r2))).
    vm_compute. reflexivity.
  - apply (proj2 (proj2 (route_reset_start_positive unset_with_t1 "t1" r2)) r1).
    + vm_compute. reflexivity.
    + reflexivity.
    + discriminate.
    + vm_compute. discriminate.
Defined.

(** A changed route with no start bitrate set: halted, table overwritten. *)
Lemma route_overwritten_before_check_witness :
  let out := OnNetworkRouteChanged "t1" r2 unset_with_t1 in
  status_of out = Halted
  /\ network_routes_ (state_of out) !! "t1" = Some r2
  /\ resets (trace_of out) = []
  /\ state_of out <> unset_with_t1.
Proof.
  apply (route_overwritten_before_check unset_with_t1 "t1" r1 r2).
  - vm_compute. reflexivity.
  - reflexivity.
  - discriminate.
  - vm_compute. discriminate.
Defined.

(** The keepalive config survives a route change, a bitrate update and a
    read. *)
Lemma keepalive_last_write_wins_witness :
  let ops := [Call_OnNetworkRouteChanged "t1" r2;
              Call_SetSdpBitrateParameters unset;
              Call_keepalive_config] in
  let out := SetKeepAliveConfig 5000 with_t1 in
  out = (Done tt, set_keepalive_ 5000 with_t1, [])
  /\ bitrate_configurator_ (state_of out) = bitrate_configurator_ with_t1
  /\ network_routes_ (state_of out) = network_routes_ with_t1
  /\ status_of (keepalive_config (state_of out)) = Done 5000
  /\ status_of (keepalive_config (state_of (run ops (state_of out)))) = Done 5000.
Proof.
  apply (keepalive_last_write_wins with_t1 5000). reflexivity.
Defined.

(** * Further properties of the member functions *)

Section Further.

Context {RtpKeepAliveConfig : Type}.
Variable keepalive_default : RtpKeepAliveConfig.
Implicit Types (st : @RtpTransportControllerSend RtpKeepAliveConfig).
Implicit Types (o : @Op RtpKeepAliveConfig) (ops : list (@Op RtpKeepAliveConfig)).
Implicit Types (name : string) (r : NetworkRoute).

(** ** One step of a script, by component *)

Lemma run_cons_status o ops st :
  status_of (run (o :: ops) st)
  = match status_of (exec o st) with
    | Done _ => status_of (run ops (state_of (exec o st)))
    | Halted => Halted
    end.
Proof.
  rewrite run_cons. unfold status_of, state_of.
  destruct (exec o st) as [[[[]|] s1] t1]; simpl; [|reflexivity].
  by destruct (run ops s1) as [[r s2] t2].
Qed.

Lemma run_cons_state o ops st :
  state_of (run (o :: ops) st)
  = match status_of (exec o st) with
    | Done _ => state_of (run ops (state_of (exec o st)))
    | Halted => state_of (exec o st)
    end.
Proof.
  rewrite run_cons. unfold status_of, state_of.
  destruct (exec o st) as [[[[]|] s1] t1]; simpl; [|reflexivity].
  by destruct (run ops s1) as [[r s2] t2].
Qed.

Lemma run_cons_trace o ops st :
  trace_of (run (o :: ops) st)
  = trace_of (exec o st)
    ++ match status_of (exec o st) with
       | Done _ => trace_of (run ops (state_of (exec o st)))
       | Halted => []
       end.
Proof.
  rewrite run_cons. unfold status_of, state_of, trace_of.
  destruct (exec o st) as [[[[]|] s1] t1]; simpl; [|by rewrite app_nil_r].
  by destruct (run ops s1) as [[r s2] t2].
Qed.

(** ** The route table as a function of the observations *)

Lemma OnNetworkRouteChanged_members st name r :
  let out := OnNetworkRouteChanged name r st in
  network_routes_ (state_of out)
  = (if connected r then <[name := r]> (network_routes_ st) else network_routes_ st)
  /\ bitrate_configurator_ (state_of out) = bitrate_configurator_ st
  /\ keepalive_ (state_of out) = keepalive_ st.
Proof.
  intros out. subst out.
  destruct (OnNetworkRouteChanged_cases st name r)
    as [(Hc & ->)|[(Hc & Hl & ->)|[(Hc & Hl & ->)
       |[(Hc & Hs & _ & ->)|(Hc & Hs & _ & ->)]]]];
    rewrite Hc; unfold state_of; simpl; repeat split.
  symmetry. by apply insert_id.
Qed.

(** X1: whatever the outcome of [OnNetworkRouteChanged name r], the table
    afterwards is the table before with [r] stored under [name] when [r] is
    connected, and the table before otherwise; the merger and the keepalive
    config are the ones before. *)
Theorem route_table_after_observation st name r :
  let out := OnNetworkRouteChanged name r st in
  network_routes_ (state_of out)
  = (if connected r then <[name := r]> (network_routes_ st) else network_routes_ st)
  /\ bitrate_configurator_ (state_of out) = bitrate_configurator_ st
  /\ keepalive_ (state_of out) = keepalive_ st.
Proof. exact (OnNetworkRouteChanged_members st name r). Qed.

(** X2: observing the same connected route a second time in a row does
    nothing: the second call returns normally, changes no member and has no
    event. *)
Theorem OnNetworkRouteChanged_again st name r :
  connected r = true ->
  let first := OnNetworkRouteChanged name r st in
  OnNetworkRouteChanged name r (state_of first) = (Done tt, state_of first, []).
Proof.
  intros Hc first. apply OnNetworkRouteChanged_same; [exact Hc|].
  subst first.
  destruct (OnNetworkRouteChanged_members st name r) as (-> & _ & _).
  rewrite Hc. apply lookup_insert_eq.
Qed.

Lemma exec_table o st :
  network_routes_ (state_of (exec o st)) = observe (network_routes_ st) o.
Proof.
  rewrite exec_network_routes. destruct o; try reflexivity.
  by destruct (OnNetworkRouteChanged_members st transport_name network_route)
    as (-> & _ & _).
Qed.

(** X3: when a script of calls returns normally, the table at its end is the
    table at its start with every connected observation of the script
    recorded in order, so each name holds the last connected route observed
    for it. *)
Theorem run_table ops st :
  status_of (run ops st) = Done tt ->
  network_routes_ (state_of (run ops st)) = fold_left observe ops (network_routes_ st).
Proof.
  revert st. induction ops as [|o ops IH]; intros st Hd; [reflexivity|].
  rewrite run_cons_status in Hd. rewrite run_cons_state. simpl.
  destruct (status_of (exec o st)); [|discriminate].
  rewrite IH by exact Hd. by rewrite exec_table.
Qed.

Lemma exec_stored_observed o st name r :
  network_routes_ (state_of (exec o st)) !! name = Some r ->
  network_routes_ st !! name = Some r \/ o = Call_OnNetworkRouteChanged name r.
Proof.
  rewrite exec_table. destruct o; simpl; auto.
  destruct (connected network_route); auto.
  destruct (decide (transport_name = name)) as [->|Hne].
  - rewrite lookup_insert_eq. intros [= ->]. by right.
  - rewrite lookup_insert_ne by done. auto.
Qed.

(** X4: every entry of the table at any point of a lifetime was put there by
    a call of the script: a route stored under a name is a route that some
    [OnNetworkRouteChanged] call of the script observed under that name. *)
Theorem stored_route_was_observed (clock event_log : ptr)
    (bitrate_config : BitrateConstraints) ops name r :
  network_routes_
    (state_of (lifetime keepalive_default clock event_log bitrate_config ops))
    !! name = Some r ->
  In (Call_OnNetworkRouteChanged name r) ops.
Proof.
  unfold lifetime.
  destruct (RtpTransportControllerSend_ctor keepalive_default clock event_log
              bitrate_config) as [[r0 s0] t0] eqn:E.
  assert (network_routes_ s0 = ∅) as H0 by (by injection E as _ <- _).
  assert (forall ops st,
             network_routes_ (state_of (run ops st)) !! name = Some r ->
             network_routes_ st !! name = Some r
             \/ In (Call_OnNetworkRouteChanged name r) ops) as Hrun.
  { clear. intros ops. induction ops as [|o ops IH]; intros st H; [by left|].
    rewrite run_cons_state in H.
    destruct (status_of (exec o st)).
    - apply IH in H as [H|H]; [|right; by right].
      apply exec_stored_observed in H as [H|H]; [by left|right; by left].
    - apply exec_stored_observed in H as [H|H]; [by left|right; by left]. }
  intros H. specialize (Hrun ops s0).
  destruct (run ops s0) as [[r' s] t]. unfold state_of in *. simpl in *.
  apply Hrun in H as [H|H]; [|exact H].
  rewrite H0, lookup_empty in H. discriminate.
Qed.

(** X5: no call removes an entry: a name that has a stored route before a
    script of calls has one after it, whether the script returns or is
    halted. *)
Theorem table_only_grows ops st :
  dom (network_routes_ st) ⊆ dom (network_routes_ (state_of (run ops st))).
Proof.
  revert st. induction ops as [|o ops IH]; intros st; [done|].
  rewrite run_cons_state.
  assert (dom (network_routes_ st) ⊆ dom (network_routes_ (state_of (exec o st))))
    as Hstep.
  { rewrite exec_table. destruct o; simpl; try done.
    destruct (connected network_route); [|done].
    rewrite dom_insert_L. set_solver. }
  destruct (status_of (exec o st)); [|exact Hstep].
  etrans; [exact Hstep|apply IH].
Qed.

(** ** Calls that assign nothing *)

Lemma exec_forwards o st :
  is_mutator o = false -> exec o st = (Done tt, st, forwards o).
Proof. destruct o; try discriminate; reflexivity. Qed.

Lemma exec_bitrate_configurator o st :
  is_bitrate_update o = false ->
  bitrate_configurator_ (state_of (exec o st)) = bitrate_configurator_ st.
Proof.
  intros Ho. rewrite exec_state. destruct o; try reflexivity; try discriminate.
  by destruct (OnNetworkRouteChanged_members st transport_name network_route)
    as (_ & -> & _).
Qed.

Lemma forwards_no_log_or_push o :
  is_mutator o = false -> List.filter is_log_or_push (forwards o) = [].
Proof. destruct o; try discriminate; intros _; reflexivity. Qed.

(** X6: the calls of the member functions that assign nothing can be taken
    out of a script without changing what the script does to the route
    table, the merger and the keepalive config: the script without them
    ends with the same status and the same three members, and has the same
    log lines, resets and [SetBweBitrates] calls in the same order. *)
Theorem calls_without_assignment_inert ops st :
  let kept := List.filter is_mutator ops in
  status_of (run ops st) = status_of (run kept st)
  /\ state_of (run ops st) = state_of (run kept st)
  /\ List.filter is_log_or_push (trace_of (run ops st))
     = List.filter is_log_or_push (trace_of (run kept st)).
Proof.
  cbv zeta. revert st. induction ops as [|o ops IH]; intros st; [done|].
  cbn [List.filter]. destruct (is_mutator o) eqn:Hm.
  - rewrite !run_cons_status, !run_cons_state, !run_cons_trace.
    rewrite !List.filter_app.
    destruct (status_of (exec o st)); [|done].
    destruct (IH (state_of (exec o st))) as (H1 & H2 & H3).
    by rewrite H1, H2, H3.
  - rewrite run_cons_status, run_cons_state, run_cons_trace.
    rewrite (exec_forwards o st Hm).
    unfold status_of at 1, state_of at 1 3 5, trace_of at 1.
    cbn [fst snd]. rewrite List.filter_app, (forwards_no_log_or_push o Hm).
    apply IH.
Qed.

(** ** When a call is halted *)

Lemma exec_halted_inv o st :
  status_of (exec o st) = Halted ->
  exists name r r1,
    o = Call_OnNetworkRouteChanged name r
    /\ connected r = true
    /\ network_routes_ st !! name = Some r1
    /\ r <> r1
    /\ start_bitrate_bps (current_config st) <= 0.
Proof.
  intros H. destruct (is_mutator o) eqn:Hm.
  2: { rewrite (exec_forwards o st Hm) in H. discriminate. }
  destruct o; try discriminate.
  - simpl in H.
    destruct (OnNetworkRouteChanged_cases st transport_name network_route)
      as [(Hc & E)|[(Hc & Hl & E)|[(Hc & Hl & E)
         |[(Hc & Hs & _ & E)|(Hc & Hs & (r1 & Hl & Hne) & E)]]]];
      rewrite E in H; try discriminate.
    exists transport_name, network_route, r1. done.
  - simpl in H. rewrite SetSdpBitrateParameters_eq in H. discriminate.
  - simpl in H. rewrite SetClientBitratePreferences_eq in H. discriminate.
Qed.

(** X7: a public call is halted in exactly one situation: it is
    [OnNetworkRouteChanged] with a connected route that differs from the
    route stored under the same name, while the start bitrate of the
    effective config is not positive. Every other call returns. *)
Theorem halted_exactly_on_bad_reset o st :
  status_of (exec o st) = Halted
  <-> exists name r r1,
        o = Call_OnNetworkRouteChanged name r
        /\ connected r = true
        /\ network_routes_ st !! name = Some r1
        /\ r <> r1
        /\ start_bitrate_bps (current_config st) <= 0.
Proof.
  split; [apply exec_halted_inv|].
  intros (name & r & r1 & -> & Hc & Hl & Hne & Hs). simpl.
  by rewrite (OnNetworkRouteChanged_halt st name r1 r Hc Hl Hne Hs).
Qed.

(** X8: from a state whose effective start bitrate is positive, a script
    without [SetSdpBitrateParameters] and [SetClientBitratePreferences]
    returns normally, and leaves the merger as it was. *)
Theorem script_without_updates_returns ops st :
  0 < start_bitrate_bps (current_config st) ->
  forallb (fun o => negb (is_bitrate_update o)) ops = true ->
  status_of (run ops st) = Done tt
  /\ bitrate_configurator_ (state_of (run ops st)) = bitrate_configurator_ st.
Proof.
  revert st. induction ops as [|o ops IH]; intros st Hs Hall; [done|].
  simpl in Hall. apply andb_true_iff in Hall as [Ho Hops].
  apply negb_true_iff in Ho.
  rewrite run_cons_status, run_cons_state.
  pose proof (exec_bitrate_configurator o st Ho) as Hcfg.
  destruct (status_of (exec o st)) as [[]|] eqn:Hst.
  - destruct (IH (state_of (exec o st))) as [H1 H2]; [|exact Hops|].
    + unfold current_config in *. by rewrite Hcfg.
    + split; [exact H1|]. by rewrite H2.
  - apply exec_halted_inv in Hst as (? & ? & ? & _ & _ & _ & _ & Hle). lia.
Qed.

(** ** Where the events of a script come from *)

(** An event of a script is an event of one of its calls, run from a state
    that keeps whatever the calls before it keep. *)
Lemma run_trace_elem (P : RtpTransportControllerSend -> Prop)
    (allowed : Op -> bool) :
  (forall o s, allowed o = true -> P s -> P (state_of (exec o s))) ->
  forall ops st e,
    forallb allowed ops = true -> P st ->
    e ∈ trace_of (run ops st) ->
    exists o s, In o ops /\ P s /\ e ∈ trace_of (exec o s).
Proof.
  intros Hstep ops. induction ops as [|o ops IH]; intros st e Hall HP He.
  - by apply elem_of_nil in He.
  - simpl in Hall. apply andb_true_iff in Hall as [Ho Hops].
    rewrite run_cons_trace in He. apply elem_of_app in He as [He|He].
    + exists o, st. split; [by left|done].
    + destruct (status_of (exec o st)); [|by apply elem_of_nil in He].
      destruct (IH (state_of (exec o st)) e Hops (Hstep o st Ho HP) He)
        as (o' & s' & Hin & HP' & He').
      exists o', s'. split; [by right|done].
Qed.

(** A reset among the events of one call. *)
Lemma exec_reset_elem o st r start_bps min_bps max_bps :
  Cc (SendSideCongestionController.OnNetworkRouteChanged
        r start_bps min_bps max_bps) ∈ trace_of (exec o st) ->
  (exists name, o = Call_OnNetworkRouteChanged name r)
  /\ connected r = true
  /\ 0 < start_bps
  /\ start_bps = start_bitrate_bps (current_config st)
  /\ min_bps = min_bitrate_bps (current_config st)
  /\ max_bps = max_bitrate_bps (current_config st).
Proof.
  intros H. destruct (is_mutator o) eqn:Hm.
  2: { rewrite (exec_forwards o st Hm) in H. unfold trace_of in H.
       destruct o; simpl in H; try discriminate; by not_in_trace H. }
  destruct o; try discriminate.
  - unfold trace_of in H. simpl in H. by apply elem_of_nil in H.
  - simpl in H.
    destruct (OnNetworkRouteChanged_cases st transport_name network_route)
      as [(Hc & E)|[(Hc & Hl & E)|[(Hc & Hl & E)
         |[(Hc & Hs & _ & E)|(Hc & Hs & _ & E)]]]];
      rewrite E in H; unfold trace_of in H; simpl in H; try by not_in_trace H.
    apply elem_of_cons in H as [H|H]; [discriminate|].
    apply list_elem_of_singleton in H. unfold reset_of in H.
    injection H as -> -> -> ->. split; [by exists transport_name|done].
  - simpl in H. rewrite SetSdpBitrateParameters_eq in H.
    unfold trace_of in H. simpl in H.
    destruct ((RtpBitrateConfigurator.UpdateWithSdpParameters _ _).1);
      by not_in_trace H.
  - simpl in H. rewrite SetClientBitratePreferences_eq in H.
    unfold trace_of in H. simpl in H.
    destruct ((RtpBitrateConfigurator.UpdateWithClientPreferences _ _).1);
      by not_in_trace H.
Qed.

(** X9: every reset that reaches the estimator during a lifetime carries a
    connected route, which an [OnNetworkRouteChanged] call of the script
    observed, and a positive start bitrate; the constructor sends none. *)
Theorem resets_of_lifetime (clock event_log : ptr)
    (bitrate_config : BitrateConstraints) ops r start_bps min_bps max_bps :
  Cc (SendSideCongestionController.OnNetworkRouteChanged
        r start_bps min_bps max_bps)
    ∈ trace_of (lifetime keepalive_default clock event_log bitrate_config ops) ->
  connected r = true
  /\ 0 < start_bps
  /\ exists name, In (Call_OnNetworkRouteChanged name r) ops.
Proof.
  unfold lifetime.
  destruct (RtpTransportControllerSend_ctor keepalive_default clock event_log
              bitrate_config) as [[r0 s0] t0] eqn:E.
  assert (t0 = trace_of (RtpTransportControllerSend_ctor keepalive_default clock
                           event_log bitrate_config)) as Ht0 by (by rewrite E).
  pose proof (run_trace_elem (fun _ => True) (fun _ => true)
                (fun _ _ _ _ => I) ops s0) as Hrun.
  destruct (run ops s0) as [[r' s] t]. unfold trace_of in *. simpl in *.
  intros H. apply elem_of_app in H as [H|H].
  { rewrite Ht0 in H. by not_in_trace H. }
  destruct (Hrun _ (ltac:(clear; induction ops; simpl; auto)) I H)
    as (o & s' & Hin & _ & He).
  apply exec_reset_elem in He as ((name & ->) & Hc & Hs & _).
  split; [done|]. split; [done|]. by exists name.
Qed.

(** X10: in a script without [SetSdpBitrateParameters] and
    [SetClientBitratePreferences], every reset carries the start, min and
    max of the effective config that was current when the script began. *)
Theorem resets_carry_current_config ops st r start_bps min_bps max_bps :
  forallb (fun o => negb (is_bitrate_update o)) ops = true ->
  Cc (SendSideCongestionController.OnNetworkRouteChanged
        r start_bps min_bps max_bps) ∈ trace_of (run ops st) ->
  start_bps = start_bitrate_bps (current_config st)
  /\ min_bps = min_bitrate_bps (current_config st)
  /\ max_bps = max_bitrate_bps (current_config st).
Proof.
  intros Hall H.
  assert (forall o s,
             negb (is_bitrate_update o) = true ->
             bitrate_configurator_ s = bitrate_configurator_ st ->
             bitrate_configurator_ (state_of (exec o s)) = bitrate_configurator_ st)
    as Hstep.
  { intros o s Ho Hs. apply negb_true_iff in Ho.
    by rewrite exec_bitrate_configurator. }
  destruct (run_trace_elem _ _ Hstep ops st _ Hall eq_refl H)
    as (o & s & _ & Hs & He).
  apply exec_reset_elem in He as (_ & _ & _ & -> & -> & ->).
  unfold current_config. by rewrite Hs.
Qed.

(** ** How many calls reach the estimator *)

Lemma exec_budget o st :
  (length (resets (trace_of (exec o st)))
   <= if is_connected_observation o then 1 else 0)%nat
  /\ (length (List.filter is_SetBweBitrates (trace_of (exec o st)))
      <= if is_bitrate_update o then 1 else 0)%nat.
Proof.
  destruct (is_mutator o) eqn:Hm.
  2: { rewrite (exec_forwards o st Hm). unfold trace_of.
       destruct o; try discriminate; simpl; lia. }
  destruct o; try discriminate.
  - unfold trace_of. simpl. lia.
  - simpl.
    destruct (OnNetworkRouteChanged_cases st transport_name network_route)
      as [(Hc & ->)|[(Hc & Hl & ->)|[(Hc & Hl & ->)
         |[(Hc & Hs & _ & ->)|(Hc & Hs & _ & ->)]]]];
      rewrite Hc; unfold trace_of; simpl; lia.
  - simpl. rewrite SetSdpBitrateParameters_eq. unfold trace_of. simpl.
    destruct ((RtpBitrateConfigurator.UpdateWithSdpParameters _ _).1); simpl; lia.
  - simpl. rewrite SetClientBitratePreferences_eq. unfold trace_of. simpl.
    destruct ((RtpBitrateConfigurator.UpdateWithClientPreferences _ _).1);
      simpl; lia.
Qed.

(** X11: a script sends the estimator at most one reset per observation of
    a connected route, and at most one [SetBweBitrates] per call of
    [SetSdpBitrateParameters] or [SetClientBitratePreferences]. *)
Theorem estimator_call_budget ops st :
  (length (resets (trace_of (run ops st)))
   <= length (List.filter is_connected_observation ops))%nat
  /\ (length (List.filter is_SetBweBitrates (trace_of (run ops st)))
      <= length (List.filter is_bitrate_update ops))%nat.
Proof.
  revert st. induction ops as [|o ops IH]; intros st; [simpl; lia|].
  rewrite run_cons_trace. unfold resets.
  rewrite !List.filter_app, !length_app.
  destruct (exec_budget o st) as [H1 H2]. unfold resets in H1.
  assert ((length (List.filter is_reset
             match status_of (exec o st) with
             | Done _ => trace_of (run ops (state_of (exec o st)))
             | Halted => []
             end) <= length (List.filter is_connected_observation ops))%nat
          /\ (length (List.filter is_SetBweBitrates
                match status_of (exec o st) with
                | Done _ => trace_of (run ops (state_of (exec o st)))
                | Halted => []
                end) <= length (List.filter is_bitrate_update ops))%nat)
    as [H3 H4].
  { destruct (status_of (exec o st)); [apply IH|simpl; lia]. }
  simpl.
  destruct (is_connected_observation o), (is_bitrate_update o); simpl; lia.
Qed.

(** ** Observations of disconnected routes *)

(** X12: the observations of disconnected routes can be taken out of a
    script without changing its outcome: the script without them ends with
    the same status and the same members, and makes the same calls on the
    collaborators in the same order. Only log lines differ. *)
Theorem disconnected_observations_inert ops st :
  let kept := List.filter (fun o => negb (is_disconnected_observation o)) ops in
  status_of (run ops st) = status_of (run kept st)
  /\ state_of (run ops st) = state_of (run kept st)
  /\ downstream (trace_of (run ops st)) = downstream (trace_of (run kept st)).
Proof.
  cbv zeta. revert st. induction ops as [|o ops IH]; intros st; [done|].
  cbn [List.filter]. destruct (is_disconnected_observation o) eqn:Hd; cbn [negb].
  - destruct o; try discriminate. cbn [is_disconnected_observation] in Hd.
    apply negb_true_iff in Hd.
    rewrite run_cons_status, run_cons_state, run_cons_trace.
    cbn [exec].
    rewrite (OnNetworkRouteChanged_disconnected st transport_name network_route Hd).
    unfold status_of at 1, state_of at 1 3 5, trace_of at 1.
    cbn [fst snd app downstream List.filter is_downstream]. apply IH.
  - rewrite !run_cons_status, !run_cons_state, !run_cons_trace.
    unfold downstream. rewrite !List.filter_app.
    destruct (status_of (exec o st)); [|done].
    destruct (IH (state_of (exec o st))) as (H1 & H2 & H3).
    unfold downstream in H3. by rewrite H1, H2, H3.
Qed.

(** ** The process thread *)

(** X13: no public member function calls the process thread: over a whole
    lifetime it receives exactly the three calls of the constructor, the
    registration of the pacer, that of the congestion controller, then
    [Start]. *)
Theorem process_thread_calls_of_lifetime (clock event_log : ptr)
    (bitrate_config : BitrateConstraints) ops st :
  thread_calls (trace_of (run ops st)) = []
  /\ thread_calls
       (trace_of (lifetime keepalive_default clock event_log bitrate_config ops))
     = [ProcessThread.RegisterModule pacer_module;
        ProcessThread.RegisterModule send_side_cc_module;
        ProcessThread.Start].
Proof.
  assert (forall s, thread_calls (trace_of (run ops s)) = []) as Hrun.
  { intros s. apply thread_calls_none.
    apply run_trace_Forall, exec_no_thread_call. }
  split; [apply Hrun|].
  unfold lifetime.
  specialize (Hrun (state_of (RtpTransportControllerSend_ctor keepalive_default
                                clock event_log bitrate_config))).
  unfold state_of, trace_of in *. simpl in *.
  destruct (run ops _) as [[r s] t]. simpl in *.
  by rewrite Hrun.
Qed.

End Further.

(** * Concrete instances of the further properties *)

(** The same route observed twice from a fresh controller. *)
Lemma OnNetworkRouteChanged_again_witness :
  let first := OnNetworkRouteChanged "t1" r1 fresh in
  OnNetworkRouteChanged "t1" r1 (state_of first) = (Done tt, state_of first, []).
Proof. apply (OnNetworkRouteChanged_again fresh "t1" r1). reflexivity. Defined.

(** Two names, one of them observed twice, with a disconnected observation
    in between. *)
Lemma run_table_witness :
  let ops := [Call_OnNetworkRouteChanged "t1" r1;
              Call_OnNetworkRouteChanged "t2" r1;
              Call_OnNetworkRouteChanged "t1" r_down;
              Call_OnNetworkRouteChanged "t1" r2] in
  network_routes_ (state_of (run ops fresh))
  = fold_left observe ops (network_routes_ fresh).
Proof. apply (run_table _ fresh). vm_compute. reflexivity. Defined.

(** The route stored under ["t1"] after two observations is the second. *)
Lemma stored_route_was_observed_witness :
  In (@Call_OnNetworkRouteChanged Z "t1" r2)
     [Call_OnNetworkRouteChanged "t1" r1; Call_OnNetworkRouteChanged "t1" r2].
Proof.
  apply (stored_route_was_observed 0 0 0 constraints
           [Call_OnNetworkRouteChanged "t1" r1; Call_OnNetworkRouteChanged "t1" r2]
           "t1" r2).
  vm_compute. reflexivity.
Defined.

(** The one halting situation, with every constraint unset. *)
Lemma halted_exactly_on_bad_reset_witness :
  status_of (exec (Call_OnNetworkRouteChanged "t1" r2) unset_with_t1) = Halted.
Proof.
  apply (proj2 (halted_exactly_on_bad_reset
                  (Call_OnNetworkRouteChanged "t1" r2) unset_with_t1)).
  exists "t1", r2, r1.
  split; [reflexivity|]. split; [reflexivity|].
  split; [vm_compute; reflexivity|].
  split; [discriminate|vm_compute; discriminate].
Defined.

(** A route change, a keepalive update and a change back. *)
Lemma script_without_updates_returns_witness :
  let ops := [Call_OnNetworkRouteChanged "t1" r2; Call_SetKeepAliveConfig 9;
              Call_OnNetworkRouteChanged "t1" r1] in
  status_of (run ops with_t1) = Done tt
  /\ bitrate_configurator_ (state_of (run ops with_t1))
     = bitrate_configurator_ with_t1.
Proof.
  apply (script_without_updates_returns _ with_t1).
  - vm_compute. reflexivity.
  - reflexivity.
Defined.

(** The reset of the scenario of the spec. *)
Lemma resets_of_lifetime_witness :
  connected r2 = true
  /\ 0 < 300000
  /\ exists name,
       In (@Call_OnNetworkRouteChanged Z name r2)
          [Call_OnNetworkRouteChanged "t1" r1; Call_OnNetworkRouteChanged "t1" r2].
Proof.
  apply (resets_of_lifetime 0 0 0 constraints
           [Call_OnNetworkRouteChanged "t1" r1; Call_OnNetworkRouteChanged "t1" r2]
           r2 300000 50000 2500000).
  apply list_elem_of_In. vm_compute.
  repeat (first [left; reflexivity | right]).
Defined.

(** The reset of a single route change. *)
Lemma resets_carry_current_config_witness :
  300000 = start_bitrate_bps (current_config with_t1)
  /\ 50000 = min_bitrate_bps (current_config with_t1)
  /\ 2500000 = max_bitrate_bps (current_config with_t1).
Proof.
  apply (resets_carry_current_config
           [Call_OnNetworkRouteChanged "t1" r2] with_t1 r2 300000 50000 2500000).
  - reflexivity.
  - apply list_elem_of_In. vm_compute.
    repeat (first [left; reflexivity | right]).
Defined.

(** * Writes to the members and locking *)

Section Unlocked.

Context {RtpKeepAliveConfig : Type}.
Implicit Types (st : @RtpTransportControllerSend RtpKeepAliveConfig).
Implicit Types (o : @Op RtpKeepAliveConfig).
Implicit Types (name : string) (r : NetworkRoute).

Lemma exec_mutation_events o st (e : Event) :
  state_of (exec o st) <> st ->
  e ∈ trace_of (exec o st) ->
  is_log_or_push e = true.
Proof.
  intros Hst He. destruct (is_mutator o) eqn:Hm.
  2: { rewrite (exec_forwards o st Hm) in Hst. by destruct Hst. }
  destruct o; try discriminate.
  - unfold trace_of in He. simpl in He. by apply elem_of_nil in He.
  - simpl in He.
    destruct (OnNetworkRouteChanged_cases st transport_name network_route)
      as [(Hc & E)|[(Hc & Hl & E)|[(Hc & Hl & E)
         |[(Hc & Hs & _ & E)|(Hc & Hs & _ & E)]]]];
      rewrite E in He; unfold trace_of in He; simpl in He;
      repeat (apply elem_of_cons in He as [->|He]; [reflexivity|]);
      by apply elem_of_nil in He.
  - simpl in He. rewrite SetSdpBitrateParameters_eq in He.
    unfold trace_of in He. simpl in He.
    destruct ((RtpBitrateConfigurator.UpdateWithSdpParameters _ _).1);
      repeat (apply elem_of_cons in He as [->|He]; [reflexivity|]);
      by apply elem_of_nil in He.
  - simpl in He. rewrite SetClientBitratePreferences_eq in He.
    unfold trace_of in He. simpl in He.
    destruct ((RtpBitrateConfigurator.UpdateWithClientPreferences _ _).1);
      repeat (apply elem_of_cons in He as [->|He]; [reflexivity|]);
      by apply elem_of_nil in He.
Qed.

(** A changed route observed from [st1] with a positive start bitrate. *)
Lemma reset_reads_merger st1 name r1 r2 :
  network_routes_ st1 !! name = Some r1 ->
  connected r2 = true ->
  r2 <> r1 ->
  0 < start_bitrate_bps (current_config st1) ->
  status_of (OnNetworkRouteChanged name r2 st1) = Done tt
  /\ downstream (trace_of (OnNetworkRouteChanged name r2 st1))
     = [reset_of r2 (current_config st1)].
Proof.
  intros Hl Hc Hne Hs.
  by rewrite (OnNetworkRouteChanged_reset st1 name r1 r2 Hc Hl Hne Hs).
Qed.

(** C6, as amended: no member function takes a lock. Whatever a call that
    changes a member does besides is a log line, a reset or a
    [SetBweBitrates] call, and [SetKeepAliveConfig] and the first
    observation of a route write their member with no event at all. Between
    consecutive calls nothing is lost: once [SetSdpBitrateParameters] or
    [SetClientBitratePreferences] has returned, the route table is
    untouched and the merger is the one the update returned, and a route
    change that follows sends one reset with the effective config of that
    merger. *)
Theorem members_written_without_lock st :
  (forall o (e : Event),
      state_of (exec o st) <> st ->
      e ∈ trace_of (exec o st) ->
      is_log_or_push e = true)
  /\ (forall c,
        state_of (SetKeepAliveConfig c st) = set_keepalive_ c st
        /\ trace_of (SetKeepAliveConfig c st) = [])
  /\ (forall name r,
        connected r = true ->
        network_routes_ st !! name = None ->
        network_routes_ (state_of (OnNetworkRouteChanged name r st)) !! name = Some r
        /\ trace_of (OnNetworkRouteChanged name r st) = [])
  /\ (forall c name r1 r2,
        let st1 := state_of (SetSdpBitrateParameters c st) in
        network_routes_ st !! name = Some r1 ->
        connected r2 = true ->
        r2 <> r1 ->
        0 < start_bitrate_bps (current_config st1) ->
        bitrate_configurator_ st1
        = (RtpBitrateConfigurator.UpdateWithSdpParameters
             c (bitrate_configurator_ st)).2
        /\ network_routes_ st1 = network_routes_ st
        /\ status_of (OnNetworkRouteChanged name r2 st1) = Done tt
        /\ downstream (trace_of (OnNetworkRouteChanged name r2 st1))
           = [reset_of r2 (current_config st1)])
  /\ (forall p name r1 r2,
        let st1 := state_of (SetClientBitratePreferences p st) in
        network_routes_ st !! name = Some r1 ->
        connected r2 = true ->
        r2 <> r1 ->
        0 < start_bitrate_bps (current_config st1) ->
        bitrate_configurator_ st1
        = (RtpBitrateConfigurator.UpdateWithClientPreferences
             p (bitrate_configurator_ st)).2
        /\ network_routes_ st1 = network_routes_ st
        /\ status_of (OnNetworkRouteChanged name r2 st1) = Done tt
        /\ downstream (trace_of (OnNetworkRouteChanged name r2 st1))
           = [reset_of r2 (current_config st1)]).
Proof.
  split; [intros o e; apply exec_mutation_events|].
  split; [intros c; split; reflexivity|].
  split.
  { intros name r Hc Hl. rewrite (OnNetworkRouteChanged_first st name r Hc Hl).
    unfold state_of, trace_of. simpl. split; [apply lookup_insert_eq|done]. }
  split.
  - intros c name r1 r2 st1 Hl Hc Hne Hs. subst st1.
    rewrite SetSdpBitrateParameters_eq in *. unfold state_of in *. simpl in *.
    split; [reflexivity|]. split; [reflexivity|].
    by apply reset_reads_merger with r1.
  - intros p name r1 r2 st1 Hl Hc Hne Hs. subst st1.
    rewrite SetClientBitratePreferences_eq in *. unfold state_of in *. simpl in *.
    split; [reflexivity|]. split; [reflexivity|].
    by apply reset_reads_merger with r1.
Qed.

End Unlocked.

(** C6 as stated fails: on a fresh controller [SetKeepAliveConfig 5000]
    replaces the stored config with no event at all, so whichever events
    are read as taking the lock, this write is not under it. *)
Lemma keepalive_written_without_lock :
  keepalive_ fresh = 0
  /\ keepalive_ (state_of (SetKeepAliveConfig 5000 fresh)) = 5000
  /\ trace_of (SetKeepAliveConfig 5000 fresh) = []
  /\ ~ (exists is_acquire : Event -> bool,
          @mutations_under_lock Z is_acquire).
Proof.
  split; [reflexivity|]. split; [reflexivity|]. split; [reflexivity|].
  intros [is_acquire H].
  specialize (H (Call_SetKeepAliveConfig 5000) fresh).
  assert (state_of (exec (Call_SetKeepAliveConfig 5000) fresh) <> fresh) as Hne.
  { intros E. apply (f_equal keepalive_) in E. vm_compute in E. discriminate. }
  apply H in Hne. vm_compute in Hne. discriminate.
Qed.

(** An update of the constraints followed by a route change, on a
    controller that has a route for ["t1"]. *)
Lemma members_written_without_lock_witness :
  let update := {| min_bitrate_bps := 1000; start_bitrate_bps := 2000;
                   max_bitrate_bps := 3000 |} in
  let st1 := state_of (SetSdpBitrateParameters update with_t1) in
  is_log_or_push (SetBweBitrates_of update) = true
  /\ (bitrate_configurator_ st1
      = (RtpBitrateConfigurator.UpdateWithSdpParameters
           update (bitrate_configurator_ with_t1)).2
      /\ network_routes_ st1 = network_routes_ with_t1
      /\ status_of (OnNetworkRouteChanged "t1" r2 st1) = Done tt
      /\ downstream (trace_of (OnNetworkRouteChanged "t1" r2 st1))
         = [reset_of r2 (current_config st1)]).
Proof.
  intros update st1. split.
  - apply (proj1 (members_written_without_lock with_t1)
             (Call_SetSdpBitrateParameters update)).
    + intros E. apply (f_equal (fun s => start_bitrate_bps (current_config s))) in E.
      vm_compute in E. discriminate.
    + apply list_elem_of_In. vm_compute. left. reflexivity.
  - apply (proj1 (proj2 (proj2 (proj2 (members_written_without_lock with_t1))))
             update "t1" r1 r2).
    + vm_compute. reflexivity.
    + reflexivity.
    + discriminate.
    + vm_compute. reflexivity.
Defined.
